(** * MPyDev: a shallow embedding of [mpydev.py]

    The module drives a BIOPAC acquisition unit through the vendor's
    [mpdev.dll].  A [BioPac] object connects to the device, starts a
    background thread ([_sampleprocesser]) that polls the most recent
    sample, and lets the foreground caller switch logging to a
    tab-separated file and to an in-memory buffer on and off.

    The development follows the source method by method.  Python values
    are modelled as the code has them: channel readings are IEEE binary64
    numbers ([PrimFloat.float], Python's [float]), and so are the readings
    of [time.time()], in seconds; strings are [string], the file system is
    a finite map from names to contents, and the methods live in a state
    monad with exceptions whose state survives a [raise], as Python
    attributes do. *)

From Stdlib Require Import ZArith QArith String Ascii List.
From Stdlib Require Import DecimalString DecimalZ DecimalPos Floats Lia.
From stdpp Require Import gmap strings list sorting.

Set Default Proof Using "Type".

(** ** Results of the driver and Python exceptions *)

(** What a call into [mpdev.dll] leaves in the variable [result]: the
    integer return code, or, when the call itself raised and the bare
    [except:] caught it, the string ["failed to call ..."]. *)
Inductive dll_result :=
| Returned (code : Z)
| FailedToCall.

(** The exceptions the module can raise, one constructor per [raise] site
    of [mpydev.py] (they are all plain [Exception] objects there, told
    apart by their message), followed by the built-in exceptions that the
    interpreter raises inside the modelled statements.  [NeverReturns] is
    not an exception: it marks a statement that does not come back, a
    [Lock.acquire(True)] on a lock that is held and that nobody releases
    in a sequential run, or a loop that runs out of the steps it is
    given. *)
Inductive error :=
| UnknownDeviceName (devname : string)
| ChannelsOutOfRange (n_channels : Z)
| FailedToConnect (result : dll_result)
| FailedToSetSamplerate (result : dll_result)
| FailedToSetChannels (result : dll_result)
| FailedToStartAcquisition (result : dll_result)
| FailedToClose (result : dll_result)
| FailedToObtainSample (result : dll_result)
| TypeError
| ValueError
| IndexError
| ZeroDivisionError
| RuntimeError
| OSError
| UnicodeEncodeError
| NeverReturns.

Inductive result (A : Type) :=
| Ok (a : A)
| Raise (e : error).
Arguments Ok {A} a.
Arguments Raise {A} e.

(** ** The Python operations the module uses *)

Module Py.

(** [str(z)] and ["%d" % z] for an [int]. *)
Definition str_int (z : Z) : string :=
  NilZero.string_of_int (Z.to_int z).


(** A value handed to the [%] operator. *)
Inductive value :=
| Int (z : Z)
| Str (s : string).

(** The conversion [%s]: [str] of the argument. *)
Definition fmt_s (v : value) : string :=
  match v with
  | Int z => str_int z
  | Str s => s
  end.

(** The conversion [%d]: a number is required. *)
Definition fmt_d (v : value) : result string :=
  match v with
  | Int z => Ok (str_int z)
  | Str _ => Raise TypeError
  end.

(** [c.upper()] on one ASCII character. *)
Definition upper_ascii (c : ascii) : ascii :=
  let n := nat_of_ascii c in
  if ((97 <=? n) && (n <=? 122))%nat then ascii_of_nat (n - 32) else c.

(** [s.upper()]. *)
Fixpoint upper (s : string) : string :=
  match s with
  | EmptyString => EmptyString
  | String c s' => String (upper_ascii c) (upper s')
  end.

(** [sep.join(l)]. *)
Fixpoint join (sep : string) (l : list string) : string :=
  match l with
  | [] => EmptyString
  | x :: rest =>
      match rest with
      | [] => x
      | _ :: _ => x +:+ sep +:+ join sep rest
      end
  end.

(** [s.split(sep)] for a separator of one character: the fields between
    the separators, at least one field. *)
Fixpoint split (sep : ascii) (s : string) : list string :=
  match s with
  | EmptyString => [EmptyString]
  | String c s' =>
      if Ascii.eqb c sep then EmptyString :: split sep s'
      else match split sep s' with
           | [] => [String c EmptyString]
           | field :: fields => String c field :: fields
           end
  end.

(** [c in s] for a character. *)
Fixpoint contains (c : ascii) (s : string) : bool :=
  match s with
  | EmptyString => false
  | String c' s' => Ascii.eqb c' c || contains c s'
  end.

(** [x != y] on two floats: IEEE comparison, so [nan != nan] and
    [not (0.0 != -0.0)]. *)
Definition float_ne (x y : float) : bool := negb (PrimFloat.eqb x y).

(** [a == b] on two tuples of floats: same length and equal items.  The
    items of the two tuples the module compares are never the same
    objects (each [tuple(data)] makes fresh floats), so the identity
    shortcut of the comparison never applies. *)
Fixpoint tuple_eq (a b : list float) : bool :=
  match a, b with
  | [], [] => true
  | x :: a', y :: b' => PrimFloat.eqb x y && tuple_eq a' b'
  | _, _ => false
  end.

Definition tuple_ne (a b : list float) : bool := negb (tuple_eq a b).

(** [l[i]] on a sequence: negative indices count from the end, anything
    else out of range raises [IndexError]. *)
Definition getitem {A : Type} (l : list A) (i : Z) : result A :=
  let n := Z.of_nat (length l) in
  let j := if (i <? 0)%Z then (i + n)%Z else i in
  if ((0 <=? j) && (j <? n))%Z then
    match l !! Z.to_nat j with
    | Some x => Ok x
    | None => Raise IndexError
    end
  else Raise IndexError.

(** [int(x)] on a float: truncation towards zero of the number
    [m * 2^e] that the float stands for.  On an infinity and on a NaN
    [int] raises; the module applies it to a difference of two readings
    of the clock multiplied by 1000, which is neither (the readings of
    [time.time()] are finite and far below the largest float), so that
    case is not followed here and gives 0. *)
Definition int_of_float (x : float) : Z :=
  match Prim2SF x with
  | S754_finite negative m e =>
      let magnitude := Z.shiftl (Z.pos m) e in
      if negative then (- magnitude)%Z else magnitude
  | _ => 0%Z
  end.

(** The 128 characters of ASCII. *)
Definition is_ascii (c : ascii) : bool := (nat_of_ascii c <? 128)%nat.

(** Whether [text.encode(encoding)] succeeds, as a text file does it on
    [write]: the characters of ASCII are encoded by every encoding that a
    text file gets, the others only by some ([can_encode] says which). *)
Fixpoint encodable (can_encode : ascii -> bool) (text : string) : bool :=
  match text with
  | EmptyString => true
  | String c text' =>
      (is_ascii c || can_encode c) && encodable can_encode text'
  end.

(** The characters of ASCII that print and are not blank (33 to 126). *)
Definition is_graph (c : ascii) : bool :=
  let n := nat_of_ascii c in ((33 <=? n) && (n <=? 126))%nat.

(** A text made of such characters only. *)
Fixpoint all_graph (text : string) : bool :=
  match text with
  | EmptyString => true
  | String c text' => is_graph c && all_graph text'
  end.

(** The characters that [str(x)] is made of for a float [x]: the digits,
    the point, the signs, the [e] of an exponent, and the letters of
    [inf] and [nan]. *)
Inductive float_char :=
| D0 | D1 | D2 | D3 | D4 | D5 | D6 | D7 | D8 | D9
| Point | Minus | Plus | Exp | LetterI | LetterN | LetterF | LetterA.

Definition float_char_ascii (c : float_char) : ascii :=
  match c with
  | D0 => "0" | D1 => "1" | D2 => "2" | D3 => "3" | D4 => "4"
  | D5 => "5" | D6 => "6" | D7 => "7" | D8 => "8" | D9 => "9"
  | Point => "." | Minus => "-" | Plus => "+" | Exp => "e"
  | LetterI => "i" | LetterN => "n" | LetterF => "f" | LetterA => "a"
  end%char.

Fixpoint float_text (l : list float_char) : string :=
  match l with
  | [] => EmptyString
  | c :: l' => String (float_char_ascii c) (float_text l')
  end.

(** [str] on floats, as an interpreter has it: which of these characters
    it gives for which float differs between the versions of Python (12
    significant digits, or the shortest digits that read back). *)
Definition rendering : Type := float -> list float_char.

(** [str(x)] for a float [x], with the interpreter's rendering. *)
Definition str_of (render : rendering) (x : float) : string :=
  float_text (render x).

End Py.

(** ** The part of NumPy the module uses *)

Module numpy.

(** [numpy.zeros(n, dtype=float)]. *)
Definition zeros (n : Z) : list float := replicate (Z.to_nat n) 0%float.

(** [t != a] for a tuple [t] and an array [a] of the same length: the
    tuple does not know arrays, so the array's reflected comparison
    answers, item by item. *)
Definition ne (t a : list float) : list bool := zip_with Py.float_ne t a.

(** The truth value of a boolean array, as [if] asks for it: that of the
    item of a one-item array; an array of several items refuses
    ([ValueError]: the truth value is ambiguous).  An empty array counts
    as false; no array of the module is empty. *)
Definition truth (a : list bool) : result bool :=
  match a with
  | [] => Ok false
  | [b] => Ok b
  | _ :: _ :: _ => Raise ValueError
  end.

End numpy.

(** ** The world around the module *)

(** The entry points of [mpdev.dll] that the module calls, with the
    arguments it passes. *)
Inductive dll_call :=
| connectMPDev (devcode method : Z) (how : string)
| setSampleRate (sampletime : Q)
| setAcqChannels (channels : list Z)
| startAcquisition
| getMostRecentSample
| disconnectMPDev.

(** The three attributes through which the foreground caller and the
    sample processing thread signal each other. *)
Inductive flag :=
| recording
| recordtobuff
| connected.

(** What a run leaves behind, in the order it happened.  [ThreadJoin] is
    listed for the statements about the order of shutdown; no statement of
    [mpydev.py] joins the thread, so no run produces it. *)
Inductive event :=
| Dll (call : dll_call) (result : dll_result)
| FileOpen (name : string)
| FileWrite (name text : string)
| FileFlush (name : string)
| FileFsync (name : string)
| FileClose (name : string)
| LockAcquire
| LockRelease
| FlagSet (f : flag) (b : bool)
| ThreadStart
| ThreadJoin.

(** The environment: the driver (what each call answers), the reading of
    [time.time()] in seconds, the files that exist with their contents,
    the names under which a file can be opened for writing (the directory
    exists and may be written to), the characters beyond ASCII that the
    encoding of a text file can encode (the encoding is the one of the
    locale, since [open] is given none), and the trace of events so
    far. *)
Record world := {
  mpdev : dll_call -> dll_result;
  clock : float;
  fs : gmap string string;
  can_open : string -> bool;
  encoding : ascii -> bool;
  trace : list event
}.

(** A Python file object opened for writing. *)
Record file := {
  file_name : string;
  file_closed : bool
}.

(** [self._newestsample]: a NumPy array when [__init__] has just created
    it, a tuple once the sample processing thread has replaced it. *)
Inductive sample_value :=
| ndarray (a : list float)
| tuple (t : list float).

Definition items (v : sample_value) : list float :=
  match v with
  | ndarray a => a
  | tuple t => t
  end.

(** The attributes of a [BioPac] object ([_supported] is a constant, see
    below; [_spthread] is the thread whose body is [_sampleprocesser]). *)
Record BioPac := {
  _devname : string;
  _devcode : Z;
  _samplerate : Q;
  _sampletime : Q;
  _sampletimesec : Q;
  _n_channels : Z;
  _logfilename : string;
  _newestsample : sample_value;
  _buffer : list float;
  _buffch : Z;
  _starting_time : float;
  _logfile : file;
  _loglock : bool;
  _recording : bool;
  _recordtobuff : bool;
  _connected : bool
}.

(** An object and the world it lives in. *)
Record state := {
  self : BioPac;
  env : world
}.

(** ** The monad of the methods: state and exceptions

    A computation maps a state to the state it leaves and either a value
    or the exception it raised; the state is kept in both cases. *)

Definition M (S A : Type) : Type := S -> S * result A.

Definition ret {S A : Type} (a : A) : M S A :=
  fun s => (s, Ok a).

Definition raise {S A : Type} (e : error) : M S A :=
  fun s => (s, Raise e).

Definition bind {S A B : Type} (m : M S A) (k : A -> M S B) : M S B :=
  fun s =>
    match m s with
    | (s', Ok a) => k a s'
    | (s', Raise e) => (s', Raise e)
    end.

Definition gets {S A : Type} (f : S -> A) : M S A :=
  fun s => (s, Ok (f s)).

Definition modify {S : Type} (f : S -> S) : M S unit :=
  fun s => (f s, Ok tt).

Definition of_result {S A : Type} (r : result A) : M S A :=
  fun s => (s, r).

Declare Scope py_scope.
Delimit Scope py_scope with py.
Notation "x <- c ;; k" := (bind c (fun x => k))
  (at level 100, c at next level, right associativity) : py_scope.
Notation "c ;; k" := (bind c (fun _ => k))
  (at level 100, right associativity) : py_scope.
Local Open Scope py_scope.

(** A computation on the world, run inside an object's state. *)
Definition in_env {A : Type} (m : M world A) : M state A :=
  fun s =>
    let (w, r) := m (env s) in
    ({| self := self s; env := w |}, r).

(** *** Operations on the world *)

Definition emit (e : event) : M world unit :=
  modify (fun w =>
    {| mpdev := mpdev w; clock := clock w; fs := fs w;
       can_open := can_open w; encoding := encoding w;
       trace := trace w ++ [e] |}).

Definition set_fs (f : gmap string string -> gmap string string)
  : M world unit :=
  modify (fun w =>
    {| mpdev := mpdev w; clock := clock w; fs := f (fs w);
       can_open := can_open w; encoding := encoding w;
       trace := trace w |}).

(** A call into the driver: the answer is the driver's, and the call is
    recorded. *)
Definition call_dll (c : dll_call) : M world dll_result :=
  r <- gets (fun w => mpdev w c) ;;
  emit (Dll c r) ;;
  ret r.

(** [time.time()]. *)
Definition time_time : M world float := gets clock.

(** [os.path.isfile(name)]. *)
Definition isfile (name : string) : M world bool :=
  gets (fun w => bool_decide (is_Some (fs w !! name))).

(** [open(name, 'w')]: the file is created or truncated; where no file
    of that name can be opened for writing, [open] raises
    ([FileNotFoundError], [PermissionError] and the like, all of them
    [OSError]) and leaves the files alone. *)
Definition open_w (name : string) : M world file :=
  allowed <- gets (fun w => can_open w name) ;;
  if allowed : bool then
    set_fs (insert name EmptyString) ;;
    emit (FileOpen name) ;;
    ret {| file_name := name; file_closed := false |}
  else raise OSError.

(** [f.write(text)] on a text file: refused on a closed file; on an open
    one the text is encoded first, and a text that the encoding of the
    file cannot encode raises [UnicodeEncodeError] with nothing
    written. *)
Definition file_write (f : file) (text : string) : M world unit :=
  if file_closed f then raise ValueError
  else
    can_encode <- gets encoding ;;
    if Py.encodable can_encode text then
      set_fs (alter (fun content => content +:+ text) (file_name f)) ;;
      emit (FileWrite (file_name f) text)
    else raise UnicodeEncodeError.

(** [f.flush()]. *)
Definition file_flush (f : file) : M world unit :=
  if file_closed f then raise ValueError
  else emit (FileFlush (file_name f)).

(** [os.fsync(f.fileno())]. *)
Definition file_fsync (f : file) : M world unit :=
  if file_closed f then raise ValueError
  else emit (FileFsync (file_name f)).

(** [f.close()]: the closed file object; closing twice is allowed. *)
Definition file_close (f : file) : M world file :=
  if file_closed f then ret f
  else
    emit (FileClose (file_name f)) ;;
    ret {| file_name := file_name f; file_closed := true |}.

(** *** Assignments to the attributes that change after [__init__] *)

Definition with_attributes (o : BioPac) (newestsample : sample_value)
  (buffer : list float) (buffch : Z) (logfile : file) (loglock : bool)
  (rec rtb conn : bool) : BioPac :=
  {| _devname := _devname o; _devcode := _devcode o;
     _samplerate := _samplerate o; _sampletime := _sampletime o;
     _sampletimesec := _sampletimesec o; _n_channels := _n_channels o;
     _logfilename := _logfilename o;
     _newestsample := newestsample; _buffer := buffer; _buffch := buffch;
     _starting_time := _starting_time o;
     _logfile := logfile; _loglock := loglock;
     _recording := rec; _recordtobuff := rtb; _connected := conn |}.

Definition on_self (f : BioPac -> BioPac) : M state unit :=
  modify (fun s => {| self := f (self s); env := env s |}).

Definition set_newestsample (v : sample_value) : M state unit :=
  on_self (fun o => with_attributes o v (_buffer o) (_buffch o)
    (_logfile o) (_loglock o) (_recording o) (_recordtobuff o)
    (_connected o)).

Definition set_buffer (b : list float) : M state unit :=
  on_self (fun o => with_attributes o (_newestsample o) b (_buffch o)
    (_logfile o) (_loglock o) (_recording o) (_recordtobuff o)
    (_connected o)).

Definition set_buffch (c : Z) : M state unit :=
  on_self (fun o => with_attributes o (_newestsample o) (_buffer o) c
    (_logfile o) (_loglock o) (_recording o) (_recordtobuff o)
    (_connected o)).

Definition set_logfile (f : file) : M state unit :=
  on_self (fun o => with_attributes o (_newestsample o) (_buffer o)
    (_buffch o) f (_loglock o) (_recording o) (_recordtobuff o)
    (_connected o)).

Definition set_loglock (held : bool) : M state unit :=
  on_self (fun o => with_attributes o (_newestsample o) (_buffer o)
    (_buffch o) (_logfile o) held (_recording o) (_recordtobuff o)
    (_connected o)).

(** An assignment to one of the three signalling attributes; it is
    recorded in the trace, where the other thread can be said to see it. *)
Definition set_flag (f : flag) (b : bool) : M state unit :=
  on_self (fun o => with_attributes o (_newestsample o) (_buffer o)
    (_buffch o) (_logfile o) (_loglock o)
    (match f with recording => b | _ => _recording o end)
    (match f with recordtobuff => b | _ => _recordtobuff o end)
    (match f with connected => b | _ => _connected o end)) ;;
  in_env (emit (FlagSet f b)).

(** [self._loglock.acquire(True)]: taken when free; when held, the caller
    waits for a release that a sequential run never brings. *)
Definition lock_acquire : M state unit :=
  held <- gets (fun s => _loglock (self s)) ;;
  if held : bool then raise NeverReturns
  else set_loglock true ;; in_env (emit LockAcquire).

(** [self._loglock.release()]: releasing a free lock is an error. *)
Definition lock_release : M state unit :=
  held <- gets (fun s => _loglock (self s)) ;;
  if held : bool then set_loglock false ;; in_env (emit LockRelease)
  else raise RuntimeError.

(** ** The module [mpydev] *)

Definition tab : ascii := "009"%char.
Definition newline : ascii := "010"%char.
Definition TAB : string := String tab EmptyString.
Definition NEWLINE : string := String newline EmptyString.

(** Function to handle errors from the mpdev DLL functions. *)
Definition check_returncode (returncode : dll_result) : string :=
  match returncode with
  | Returned code => if (code =? 1)%Z then "MPSUCCESS" else "UNKNOWN"
  | FailedToCall => "UNKNOWN"
  end.

(** The statement that follows every call of the driver:
    [if check_returncode(result) != "MPSUCCESS": raise Exception(...)]. *)
Definition raise_unless_success {S : Type} (result : dll_result)
  (exception : dll_result -> error) : M S unit :=
  if negb (String.eqb (check_returncode result) "MPSUCCESS")
  then raise (exception result)
  else ret tt.

(** Dict with the supported devices and their codes. *)
Definition _supported : gmap string Z :=
  {[ "MP150" := 101%Z; "MP160" := 103%Z; "MP36R" := 103%Z ]}.

(** ["%s_%d_BIOPAC_data.tsv" % (i, logfile)]: the counter goes to [%s] and
    the name of the log file to [%d]. *)
Definition numbered_logfilename (i : Z) (logfile : string) : result string :=
  match Py.fmt_d (Py.Str logfile) with
  | Ok d => Ok (Py.fmt_s (Py.Int i) +:+ "_" +:+ d +:+ "_BIOPAC_data.tsv")
  | Raise e => Raise e
  end.

(** The loop [while os.path.isfile(self._logfilename)] of [__init__],
    given a number of iterations it may take. *)
Fixpoint find_unused_logfilename (steps : nat) (logfile : string) (i : Z)
  (logfilename : string) : M world string :=
  match steps with
  | O => raise NeverReturns
  | S steps' =>
      taken <- isfile logfilename ;;
      if taken : bool then
        let i := (i + 1)%Z in
        logfilename <- of_result (numbered_logfilename i logfile) ;;
        find_unused_logfilename steps' logfile i logfilename
      else ret logfilename
  end.

(** Set the log file name: the plain name, or, when a file of that name
    exists and may not be overwritten, the result of the search.  The
    search is given one iteration more than there are files. *)
Definition set_logfilename (logfile : string) (overwrite : bool)
  : M world string :=
  let logfilename := Py.fmt_s (Py.Str logfile) +:+ "_BIOPAC_data.tsv" in
  taken <- isfile logfilename ;;
  if taken && negb overwrite then
    steps <- gets (fun w => S (size (fs w))) ;;
    find_unused_logfilename steps logfile 1 logfilename
  else ret logfilename.

(** The header of the log file. *)
Definition header (n_channels : Z) : list string :=
  "timestamp" ::
  map (fun i => "channel_" +:+ Py.str_int i) (seqZ 0 n_channels).

(** [BioPac.__init__(devname, n_channels, samplerate, logfile, overwrite)]:
    finds a BioPac device, and initializes a connection. *)
Definition __init__ (devname : string) (n_channels samplerate : Z)
  (logfile : string) (overwrite : bool) : M world BioPac :=
  (* Check whether the passed device name is valid. *)
  match _supported !! Py.upper devname with
  | None => raise (UnknownDeviceName devname)
  | Some devcode =>
  (* Set the sampling properties. *)
  if (samplerate =? 0)%Z then raise ZeroDivisionError else
  let rate := inject_Z samplerate in
  let sampletime := (1000 / rate)%Q in
  let sampletimesec := (sampletime / 1000)%Q in
  (* Check the channels, and verify that there aren't over 16. *)
  if negb ((0 <? n_channels)%Z && (n_channels <=? 16)%Z)
  then raise (ChannelsOutOfRange n_channels) else
  (* Set the log file name. *)
  logfilename <- set_logfilename logfile overwrite ;;
  (* Pre-create properties that are used by methods. *)
  let newestsample := ndarray (numpy.zeros n_channels) in
  (* Connect to the BIOPAC device. *)
  result <- call_dll (connectMPDev devcode 11 "auto") ;;
  raise_unless_success result FailedToConnect ;;
  (* Get the connection start time. *)
  starting_time <- time_time ;;
  (* Set the device's sampling rate. *)
  result <- call_dll (setSampleRate sampletime) ;;
  raise_unless_success result FailedToSetSamplerate ;;
  (* Set Channels to acquire. *)
  let channels :=
    replicate (Z.to_nat n_channels) 1%Z ++
    replicate (Z.to_nat (16 - n_channels)) 0%Z in
  result <- call_dll (setAcqChannels channels) ;;
  raise_unless_success result FailedToSetChannels ;;
  (* Start data acquisition. *)
  result <- call_dll startAcquisition ;;
  raise_unless_success result FailedToStartAcquisition ;;
  (* Open a new log file, and write a header to it. *)
  logfile <- open_w logfilename ;;
  file_write logfile (Py.join TAB (header n_channels)) ;;
  (* Start the sample processing Thread. *)
  emit ThreadStart ;;
  ret {| _devname := Py.upper devname; _devcode := devcode;
         _samplerate := rate; _sampletime := sampletime;
         _sampletimesec := sampletimesec; _n_channels := n_channels;
         _logfilename := logfilename;
         _newestsample := newestsample; _buffer := []; _buffch := 0%Z;
         _starting_time := starting_time;
         _logfile := logfile; _loglock := false;
         _recording := false; _recordtobuff := false;
         _connected := true |}
  end.

(** Starts writing MP150 samples to the log file. *)
Definition start_recording : M state unit :=
  set_flag recording true.

(** Stops writing MP150 samples to the log file. *)
Definition stop_recording : M state unit :=
  (* Signal to the sample processing thread that recording stopped. *)
  set_flag recording false ;;
  (* Consolidate logged data from the internal buffer to disk. *)
  lock_acquire ;;
  logfile <- gets (fun s => _logfile (self s)) ;;
  in_env (file_flush logfile) ;;
  in_env (file_fsync logfile) ;;
  lock_release.

(** Starts recording to an internal buffer. *)
Definition start_recording_to_buffer (channel : Z) : M state unit :=
  (* Clear the internal buffer. *)
  set_buffer [] ;;
  set_buffch channel ;;
  (* Signal to the sample processing thread. *)
  set_flag recordtobuff true.

(** Stops recording samples to an internal buffer. *)
Definition stop_recording_to_buffer : M state unit :=
  set_flag recordtobuff false.

(** Returns the most recent sample provided by the BIOPAC device. *)
Definition sample : M state sample_value :=
  gets (fun s => _newestsample (self s)).

(** Returns the internal sample buffer ([numpy.array(self._buffer)], a
    copy of the list). *)
Definition get_buffer : M state (list float) :=
  gets (fun s => _buffer (self s)).

(** Returns the time in milliseconds since the connection was opened:
    [int((time.time() - self._starting_time) * 1000)], the difference and
    the product being those of binary64 floats. *)
Definition get_timestamp : M state Z :=
  now <- in_env time_time ;;
  start <- gets (fun s => _starting_time (self s)) ;;
  ret (Py.int_of_float ((now - start) * 1000)%float).

(** The text of a message row: ["\nMSG\t%d\t%s" % (t, msg)]. *)
Definition message_row (t : Z) (msg : string) : string :=
  NEWLINE +:+ "MSG" +:+ TAB +:+ Py.str_int t +:+ TAB +:+
  Py.fmt_s (Py.Str msg).

(** Writes a message to the log file. *)
Definition log (msg : string) : M state unit :=
  (* Get the call timestamp. *)
  t <- get_timestamp ;;
  (* Wait for the logging lock to be released, then lock it. *)
  lock_acquire ;;
  (* Log the message, including the recorded timestamp. *)
  logfile <- gets (fun s => _logfile (self s)) ;;
  in_env (file_write logfile (message_row t msg)) ;;
  (* Release the logging lock. *)
  lock_release.

(** Closes the connection to the BIOPAC device. *)
Definition close : M state unit :=
  (* Stop recording if it's still on. *)
  still_recording <- gets (fun s => _recording (self s)) ;;
  (if still_recording : bool then stop_recording else ret tt) ;;
  (* Close the log file. *)
  logfile <- gets (fun s => _logfile (self s)) ;;
  logfile <- in_env (file_close logfile) ;;
  set_logfile logfile ;;
  (* Signal to the sample processing Thread that it can stop. *)
  set_flag connected false ;;
  (* Close the connection with the BIOPAC device. *)
  result <- in_env (call_dll disconnectMPDev) ;;
  raise_unless_success result FailedToClose.

(** *** The sample processing thread *)

(** One answer of [mpdev.getMostRecentSample]: the return code, the
    readings it wrote into the array it was given, and the reading of
    [time.time()] when the (blocking) call came back. *)
Record fetch := {
  fetch_result : dll_result;
  fetch_values : list float;
  fetch_clock : float
}.

(** The [c_double] array made from [n] zeros, after the driver wrote its
    readings into it, as the tuple [tuple(data)]: always [n] items. *)
Definition c_double_array (n : Z) (values : list float) : list float :=
  take (Z.to_nat n) (values ++ numpy.zeros n).

(** The world when the driver's answer arrives. *)
Definition answer (f : fetch) : M world unit :=
  modify (fun w =>
    {| mpdev := mpdev w; clock := fetch_clock f; fs := fs w;
       can_open := can_open w; encoding := encoding w;
       trace := trace w |}) ;;
  emit (Dll getMostRecentSample (fetch_result f)).

(** The novelty test [data != self._newestsample]. *)
Definition sample_ne (data : list float) (newestsample : sample_value)
  : result bool :=
  match newestsample with
  | tuple t => Ok (Py.tuple_ne data t)
  | ndarray a => numpy.truth (numpy.ne data a)
  end.

(** Attempt to get a new sample from the BIOPAC, with its timestamp
    ([get_timestamp] changes nothing, so it may be read before the
    return code is checked). *)
Definition sp_fetch (f : fetch) : M state (Z * list float) :=
  n <- gets (fun s => _n_channels (self s)) ;;
  in_env (answer f) ;;
  t <- get_timestamp ;;
  raise_unless_success (fetch_result f) FailedToObtainSample ;;
  ret (t, c_double_array n (fetch_values f)).

(** Check if the new sample is in fact new, and update the internal newest
    sample if it is ([copy.deepcopy] of a tuple of floats is that
    tuple). *)
Definition sp_novel (f : fetch) : M state (option (Z * list float)) :=
  td <- sp_fetch f ;;
  newestsample <- gets (fun s => _newestsample (self s)) ;;
  novel <- of_result (sample_ne (snd td) newestsample) ;;
  if novel : bool then set_newestsample (tuple (snd td)) ;; ret (Some td)
  else ret None.

(** Add the sample to the buffer. *)
Definition sp_to_buffer : M state unit :=
  newestsample <- gets (fun s => _newestsample (self s)) ;;
  buffch <- gets (fun s => _buffch (self s)) ;;
  x <- of_result (Py.getitem (items newestsample) buffch) ;;
  buffer <- gets (fun s => _buffer (self s)) ;;
  set_buffer (buffer ++ [x]).

Section SampleProcesser.

(** [str] on floats: the interpreter's rendering, which differs between
    versions of Python. *)
Variable str_float : Py.rendering.

(** The text of a data row:
    ["\n" + "\t".join(map(str, [t] + list(data)))]. *)
Definition data_row (t : Z) (data : list float) : string :=
  NEWLINE +:+
  Py.join TAB (Py.str_int t :: map (Py.str_of str_float) data).

(** Write the new sample to file. *)
Definition sp_write_row (t : Z) (data : list float) : M state unit :=
  (* Wait for the logging lock to be released, then lock it. *)
  lock_acquire ;;
  (* Log the data as a string of tab-separated values. *)
  logfile <- gets (fun s => _logfile (self s)) ;;
  in_env (file_write logfile (data_row t data)) ;;
  (* Release the logging lock. *)
  lock_release.

(** What the thread does with a novel sample, from the test of
    [self._recording] on. *)
Definition sp_record (td : Z * list float) : M state unit :=
  rec <- gets (fun s => _recording (self s)) ;;
  (if rec : bool then sp_write_row (fst td) (snd td) else ret tt) ;;
  rtb <- gets (fun s => _recordtobuff (self s)) ;;
  if rtb : bool then sp_to_buffer else ret tt.

(** The body of the loop [while self._connected]. *)
Definition sp_iteration (f : fetch) : M state unit :=
  novel <- sp_novel f ;;
  match novel with
  | Some td => sp_record td
  | None => ret tt
  end.

(** How the thread stands when the driver has no further answer: inside
    the blocking call, or past the end of its loop. *)
Inductive thread_status :=
| Waiting
| Finished.

(** Processes samples while [self._connected] is True, on the answers
    the driver gives. *)
Fixpoint _sampleprocesser (fetches : list fetch) : M state thread_status :=
  match fetches with
  | [] =>
      alive <- gets (fun s => _connected (self s)) ;;
      ret (if alive : bool then Waiting else Finished)
  | f :: fetches' =>
      alive <- gets (fun s => _connected (self s)) ;;
      if alive : bool then sp_iteration f ;; _sampleprocesser fetches'
      else ret Finished
  end.

End SampleProcesser.

(** ** Definitions used to state the properties *)

(** A session as [__init__] leaves it, for the examples: [n_channels]
    channels at 200 Hz, connected at second 10 of the clock, the header
    written, nothing recorded yet.  Every file can be opened, and the
    encoding of text files is ASCII. *)
Definition demo_name : string := "demo_BIOPAC_data.tsv".

Definition demo_self (n_channels : Z) (rec : bool) : BioPac :=
  {| _devname := "MP150"; _devcode := 101%Z;
     _samplerate := 200%Q; _sampletime := (1000 / 200)%Q;
     _sampletimesec := (1000 / 200 / 1000)%Q; _n_channels := n_channels;
     _logfilename := demo_name;
     _newestsample := ndarray (numpy.zeros n_channels);
     _buffer := []; _buffch := 0%Z;
     _starting_time := 10%float;
     _logfile := {| file_name := demo_name; file_closed := false |};
     _loglock := false;
     _recording := rec; _recordtobuff := false; _connected := true |}.

Definition demo_env (n_channels : Z) : world :=
  {| mpdev := fun _ => Returned 1;
     clock := 12%float;
     fs := {[ demo_name := Py.join TAB (header n_channels) ]};
     can_open := fun _ => true;
     encoding := fun _ => false;
     trace := [] |}.

Definition demo (n_channels : Z) (rec : bool) : state :=
  {| self := demo_self n_channels rec; env := demo_env n_channels |}.

(** The content of the log file of a session. *)
Definition log_content (s : state) : option string :=
  fs (env s) !! file_name (_logfile (self s)).

(** The timestamp a session gives at the present reading of the clock. *)
Definition timestamp_now (s : state) : Z :=
  Py.int_of_float
    ((clock (env s) - _starting_time (self s)) * 1000)%float.

(** The claim that [start_recording_to_buffer] checks its channel: the call
    raises, and [_recordtobuff] is as it was. *)
Definition fails_fast (channel : Z) (s : state) : Prop :=
  exists e,
    snd (start_recording_to_buffer channel s) = Raise e /\
    _recordtobuff (self (fst (start_recording_to_buffer channel s))) =
      _recordtobuff (self s).

(** Whether the device is connected after a trace: a successful
    [connectMPDev] connects it, a successful [disconnectMPDev]
    disconnects it. *)
Definition device_connected (tr : list event) : bool :=
  fold_left
    (fun conn e =>
       match e with
       | Dll (connectMPDev _ _ _) r =>
           if String.eqb (check_returncode r) "MPSUCCESS" then true
           else conn
       | Dll disconnectMPDev r =>
           if String.eqb (check_returncode r) "MPSUCCESS" then false
           else conn
       | _ => conn
       end)
    tr false.

(** The claim that a failed [__init__] unwinds: whenever it raises, the
    device is left disconnected. *)
Definition unwinds_on_failure (run : world * result BioPac) : Prop :=
  forall e, snd run = Raise e -> device_connected (trace (fst run)) = false.

(** The four calls of the driver that [__init__] makes, in order, each
    with the exception raised when it does not succeed. *)
Definition open_sequence (devcode : Z) (sampletime : Q) (n_channels : Z)
  : list (dll_call * (dll_result -> error)) :=
  [ (connectMPDev devcode 11 "auto", FailedToConnect);
    (setSampleRate sampletime, FailedToSetSamplerate);
    (setAcqChannels
       (replicate (Z.to_nat n_channels) 1%Z ++
        replicate (Z.to_nat (16 - n_channels)) 0%Z),
     FailedToSetChannels);
    (startAcquisition, FailedToStartAcquisition) ].

(** A world whose driver connects but refuses the sample rate. *)
Definition refusing_rate : world :=
  {| mpdev := fun c =>
       match c with
       | setSampleRate _ => Returned 0
       | _ => Returned 1
       end;
     clock := 10%float; fs := ∅;
     can_open := fun _ => true; encoding := fun _ => false;
     trace := [] |}.

(** A world in which the default log file already exists. *)
Definition with_old_log : world :=
  {| mpdev := fun _ => Returned 1; clock := 10%float;
     fs := {[ "default_BIOPAC_data.tsv" := "timestamp" ]};
     can_open := fun _ => true; encoding := fun _ => false;
     trace := [] |}.

(** *** Reading the log back

    What was written to the log, and a reader of the file: it takes the
    file line by line and splits each line on tabs. *)


Section Rows.

Variable str_float : Py.rendering.





End Rows.







(** A rendering for the examples: Python's [str] on the readings that
    the examples use, which are the zeros, the infinities, NaN, and 1.0,
    1.5, 2.0, 2.5 and 3.0 (any other reading is given as 2.0; no example
    has one). *)
Definition demo_str_float : Py.rendering :=
  fun x =>
    match PrimFloat.classify x with
    | NaN => [Py.LetterN; Py.LetterA; Py.LetterN]
    | PInf => [Py.LetterI; Py.LetterN; Py.LetterF]
    | NInf => [Py.Minus; Py.LetterI; Py.LetterN; Py.LetterF]
    | PZero => [Py.D0; Py.Point; Py.D0]
    | NZero => [Py.Minus; Py.D0; Py.Point; Py.D0]
    | _ =>
        if PrimFloat.eqb x 1 then [Py.D1; Py.Point; Py.D0]
        else if PrimFloat.eqb x 1.5 then [Py.D1; Py.Point; Py.D5]
        else if PrimFloat.eqb x 2.5 then [Py.D2; Py.Point; Py.D5]
        else if PrimFloat.eqb x 3 then [Py.D3; Py.Point; Py.D0]
        else [Py.D2; Py.Point; Py.D0]
    end.

(** *** Messages *)

(** The claim about [log]: the call returns, and the log file has the
    message row appended. *)
Definition logs_message (msg : string) (s : state) : Prop :=
  exists s' content,
    log msg s = (s', Ok tt) /\
    log_content s = Some content /\
    log_content s' =
      Some (content +:+ message_row (timestamp_now s) msg).

(** A message with a character beyond ASCII ([e] with an acute accent,
    character 233). *)
Definition accented : string := String "233"%char EmptyString.

(** *** The order of events at shutdown *)

Definition is_alive_cleared (e : event) : bool :=
  match e with
  | FlagSet connected false => true
  | _ => false
  end.

Definition is_thread_joined (e : event) : bool :=
  match e with
  | ThreadJoin => true
  | _ => false
  end.

Definition is_log_closed (e : event) : bool :=
  match e with
  | FileClose _ => true
  | _ => false
  end.

(** In the trace, an event of the first kind comes before the first event
    of the second kind. *)
Fixpoint happens_before (first second : event -> bool) (tr : list event)
  : bool :=
  match tr with
  | [] => false
  | e :: tr' =>
      if second e then false
      else if first e then existsb second tr'
      else happens_before first second tr'
  end.

(** The claim about [close]: the log file is closed after [_connected]
    was cleared, or after the thread was joined. *)
Definition closes_log_after_loop_stopped (tr : list event) : bool :=
  happens_before is_alive_cleared is_log_closed tr ||
  happens_before is_thread_joined is_log_closed tr.

(** The events of [stop_recording] on the log file [name]. *)
Definition stop_recording_events (name : string) : list event :=
  [FlagSet recording false; LockAcquire; FileFlush name; FileFsync name;
   LockRelease].

(** *** Sessions *)

(** What can happen to an open session: a call of a public method by the
    foreground caller, or the thread working through some answers of the
    driver. *)
Inductive call :=
| StartRecording
| StopRecording
| StartRecordingToBuffer (channel : Z)
| StopRecordingToBuffer
| Sample
| GetBuffer
| Log (msg : string)
| GetTimestamp
| Close
| ThreadRuns (fetches : list fetch).

(** The state after one of them (whether it returned or raised). *)
Definition perform (str_float : Py.rendering) (c : call) (s : state)
  : state :=
  match c with
  | StartRecording => fst (start_recording s)
  | StopRecording => fst (stop_recording s)
  | StartRecordingToBuffer channel => fst (start_recording_to_buffer channel s)
  | StopRecordingToBuffer => fst (stop_recording_to_buffer s)
  | Sample => fst (sample s)
  | GetBuffer => fst (get_buffer s)
  | Log msg => fst (log msg s)
  | GetTimestamp => fst (get_timestamp s)
  | Close => fst (close s)
  | ThreadRuns fetches => fst (_sampleprocesser str_float fetches s)
  end.

Definition session_after (str_float : Py.rendering) (calls : list call)
  (s : state) : state :=
  fold_left (fun s c => perform str_float c s) calls s.

(** A property of a session that speaks of the newest sample and of the
    number of channels only. *)
Definition about_sample (P : sample_value -> Z -> Prop) (s : state) : Prop :=
  P (_newestsample (self s)) (_n_channels (self s)).

(** A computation keeps a property of the state, whether it returns or
    raises, and what it returns has the property [Q]. *)
Definition keeps {A : Type} (I : state -> Prop) (m : M state A)
  (Q : A -> Prop) : Prop :=
  forall s, I s -> I (fst (m s)) /\ forall a, snd (m s) = Ok a -> Q a.

(** The session has [n] channels and its newest sample has [n] items. *)
Definition channels_ok (n : Z) : state -> Prop :=
  about_sample (fun v n_channels =>
    n_channels = n /\ length (items v) = Z.to_nat n).

(** A successful answer of the driver with the given readings. *)
Definition reading (values : list float) (now : float) : fetch :=
  {| fetch_result := Returned 1; fetch_values := values;
     fetch_clock := now |}.

(** The three answers of the example of the specification: the same
    vector twice, then a vector that differs in its first channel. *)
Definition three_readings : list fetch :=
  [ reading [1%float; 2%float; 3%float] 11%float;
    reading [1%float; 2%float; 3%float] 12%float;
    reading [1.5%float; 2%float; 3%float] 13%float ].

(** *** The loop on a session whose newest sample is a tuple *)

(** The timestamp and the tuple that the thread makes of an answer of the
    driver, on a session connected at [start] with [n] channels. *)
Definition stamped (start : float) (n : Z) (f : fetch) : Z * list float :=
  (Py.int_of_float ((fetch_clock f - start) * 1000)%float,
   c_double_array n (fetch_values f)).

(** The samples that differ from their predecessor, the first one from
    [newest]: one per run of equal consecutive values. *)
Fixpoint novel (newest : list float) (samples : list (Z * list float))
  : list (Z * list float) :=
  match samples with
  | [] => []
  | td :: samples' =>
      if Py.tuple_ne (snd td) newest then td :: novel (snd td) samples'
      else novel newest samples'
  end.

(** The data rows of some samples, one after the other. *)
Fixpoint data_rows (str_float : Py.rendering)
  (samples : list (Z * list float)) : string :=
  match samples with
  | [] => EmptyString
  | td :: samples' =>
      data_row str_float (fst td) (snd td) +:+ data_rows str_float samples'
  end.

(** The reading of channel [ch] in a sample (0.0 when there is no such
    channel, where the thread raises). *)
Definition channel (ch : Z) (data : list float) : float :=
  match Py.getitem data ch with
  | Ok x => x
  | Raise _ => 0%float
  end.

(** The attributes that the thread's loop reads and does not assign, and
    the encoding of text files. *)
Definition same_settings (s s' : state) : Prop :=
  _n_channels (self s') = _n_channels (self s) /\
  _starting_time (self s') = _starting_time (self s) /\
  _buffch (self s') = _buffch (self s) /\
  _logfile (self s') = _logfile (self s) /\
  _loglock (self s') = _loglock (self s) /\
  _recording (self s') = _recording (self s) /\
  _recordtobuff (self s') = _recordtobuff (self s) /\
  _connected (self s') = _connected (self s) /\
  encoding (env s') = encoding (env s).

(** Each sample differs from its predecessor, the first one from
    [newest]. *)
Fixpoint all_differ (newest : list float) (samples : list (Z * list float))
  : bool :=
  match samples with
  | [] => true
  | td :: samples' =>
      Py.tuple_ne (snd td) newest && all_differ (snd td) samples'
  end.

(** The calls made by the foreground caller. *)
Definition is_foreground (c : call) : bool :=
  match c with
  | ThreadRuns _ => false
  | _ => true
  end.

(** *** Further definitions for the properties of the code *)

(** The checks that [__init__] makes on its arguments before it calls the
    driver, in the order of the source, with the exception of the first
    one that fails. *)
Definition argument_error (devname : string) (n_channels samplerate : Z)
  (logfile : string) (overwrite : bool) (w : world) : option error :=
  match _supported !! Py.upper devname with
  | None => Some (UnknownDeviceName devname)
  | Some _ =>
      if (samplerate =? 0)%Z then Some ZeroDivisionError
      else if negb ((0 <? n_channels)%Z && (n_channels <=? 16)%Z)
      then Some (ChannelsOutOfRange n_channels)
      else if bool_decide (is_Some (fs w !! (logfile +:+ "_BIOPAC_data.tsv")))
              && negb overwrite
      then Some TypeError
      else None
  end.

(** The events that only record a call of the driver. *)
Definition is_dll (e : event) : bool :=
  match e with
  | Dll _ _ => true
  | _ => false
  end.

(** A session with one or more channels whose thread has already
    installed a tuple as the newest sample, for the examples. *)
Definition demo_tuple (newest : list float) (rec rtb : bool) (buffch : Z)
  : state :=
  {| self :=
       {| _devname := "MP150"; _devcode := 101%Z;
          _samplerate := 200%Q; _sampletime := (1000 / 200)%Q;
          _sampletimesec := (1000 / 200 / 1000)%Q;
          _n_channels := Z.of_nat (length newest);
          _logfilename := demo_name;
          _newestsample := tuple newest;
          _buffer := []; _buffch := buffch;
          _starting_time := 10%float;
          _logfile := {| file_name := demo_name; file_closed := false |};
          _loglock := false;
          _recording := rec; _recordtobuff := rtb; _connected := true |};
     env := demo_env (Z.of_nat (length newest)) |}.

(** The log can be written to: the lock is free and the file is open. *)
Definition log_ready (s : state) : Prop :=
  _loglock (self s) = false /\ file_closed (_logfile (self s)) = false.

(** The calls other than [close()]. *)
Definition is_not_close (c : call) : bool :=
  match c with
  | Close => false
  | _ => true
  end.

(** The calls whose writes to the log can be encoded: every call but a
    [log] of a message that the encoding of the log file cannot
    encode. *)
Definition is_encodable (can_encode : ascii -> bool) (c : call) : bool :=
  match c with
  | Log msg => Py.encodable can_encode msg
  | _ => true
  end.

(** ** Reasoning about the monad *)

Lemma bind_Ok {S A B : Type} (m : M S A) (k : A -> M S B) s s' a :
  m s = (s', Ok a) -> bind m k s = k a s'.
Proof. intros H. unfold bind. now rewrite H. Qed.

Lemma bind_Raise {S A B : Type} (m : M S A) (k : A -> M S B) s s' e :
  m s = (s', Raise e) -> bind m k s = (s', Raise e).
Proof. intros H. unfold bind. now rewrite H. Qed.

(** Unfolding a method down to the state it returns. *)
Ltac run :=
  cbv [bind ret raise gets modify of_result in_env emit set_fs on_self
       set_newestsample set_buffer set_buffch set_logfile set_loglock
       set_flag lock_acquire lock_release time_time call_dll
       file_write file_flush file_fsync file_close get_timestamp
       raise_unless_success];
  cbn [self env fst snd mpdev clock fs can_open encoding trace file_name
       file_closed
       with_attributes _devname _devcode _samplerate _sampletime
       _sampletimesec _n_channels _logfilename _newestsample _buffer
       _buffch _starting_time _logfile _loglock _recording _recordtobuff
       _connected].

Lemma with_attributes_same (o : BioPac) :
  with_attributes o (_newestsample o) (_buffer o) (_buffch o) (_logfile o)
    (_loglock o) (_recording o) (_recordtobuff o) (_connected o) = o.
Proof. now destruct o. Qed.

(** ** Texts *)

Lemma append_empty_r (s : string) : s +:+ EmptyString = s.
Proof.
  induction s as [|c s IH]; [reflexivity|].
  change (String c s +:+ EmptyString) with (String c (s +:+ EmptyString)).
  now rewrite IH.
Qed.

Lemma append_assoc (s1 s2 s3 : string) :
  (s1 +:+ s2) +:+ s3 = s1 +:+ (s2 +:+ s3).
Proof.
  induction s1 as [|c s1 IH]; [reflexivity|].
  change (String c s1 +:+ s2) with (String c (s1 +:+ s2)).
  change (String c (s1 +:+ s2) +:+ s3) with (String c ((s1 +:+ s2) +:+ s3)).
  now rewrite IH.
Qed.

Lemma contains_append (c : ascii) (s1 s2 : string) :
  Py.contains c (s1 +:+ s2) = Py.contains c s1 || Py.contains c s2.
Proof.
  induction s1 as [|c1 s1 IH]; [reflexivity|].
  change (String c1 s1 +:+ s2) with (String c1 (s1 +:+ s2)).
  cbn [Py.contains]. now rewrite IH, orb_assoc.
Qed.

Lemma encodable_append (can_encode : ascii -> bool) (s1 s2 : string) :
  Py.encodable can_encode (s1 +:+ s2) =
    Py.encodable can_encode s1 && Py.encodable can_encode s2.
Proof.
  induction s1 as [|c1 s1 IH]; [reflexivity|].
  change (String c1 s1 +:+ s2) with (String c1 (s1 +:+ s2)).
  cbn [Py.encodable]. now rewrite IH, andb_assoc.
Qed.


(** A character that prints is one of ASCII, and neither a tab nor a
    line break. *)
Lemma is_graph_spec (c : ascii) :
  Py.is_graph c = true ->
  Py.is_ascii c = true /\ Ascii.eqb c tab = false /\
  Ascii.eqb c newline = false.
Proof.
  destruct c as [b0 b1 b2 b3 b4 b5 b6 b7].
  destruct b0, b1, b2, b3, b4, b5, b6, b7; intros H;
    first [discriminate H | now repeat split].
Qed.

(** A text of such characters can be encoded whatever the encoding, and
    holds neither a tab nor a line break. *)
Lemma all_graph_spec (can_encode : ascii -> bool) (text : string) :
  Py.all_graph text = true ->
  Py.encodable can_encode text = true /\
  Py.contains tab text = false /\ Py.contains newline text = false.
Proof.
  induction text as [|c text IH]; [now repeat split|].
  cbn [Py.all_graph Py.encodable Py.contains]. intros H.
  apply andb_true_iff in H as [Hc Htext].
  destruct (is_graph_spec c Hc) as (-> & -> & ->).
  destruct (IH Htext) as (-> & -> & ->). now repeat split.
Qed.

Lemma string_of_uint_all_graph (d : Decimal.uint) :
  Py.all_graph (NilEmpty.string_of_uint d) = true.
Proof. induction d; cbn; auto. Qed.

(** The decimal rendering of an integer holds digits and a sign only. *)
Lemma str_int_all_graph (z : Z) : Py.all_graph (Py.str_int z) = true.
Proof.
  unfold Py.str_int.
  assert (H : forall d, Py.all_graph (NilZero.string_of_uint d) = true).
  { intros d. destruct d; try apply string_of_uint_all_graph. reflexivity. }
  destruct (Z.to_int z); cbn; apply H.
Qed.

Lemma str_int_no_tab (z : Z) : Py.contains tab (Py.str_int z) = false.
Proof. apply (all_graph_spec (fun _ => false)), str_int_all_graph. Qed.

Lemma str_int_encodable (can_encode : ascii -> bool) (z : Z) :
  Py.encodable can_encode (Py.str_int z) = true.
Proof. apply all_graph_spec, str_int_all_graph. Qed.

(** Joining texts that can be encoded, with a separator that can. *)
Lemma join_encodable (can_encode : ascii -> bool) (sep : string)
  (fields : list string) :
  Py.encodable can_encode sep = true ->
  Forall (fun x => Py.encodable can_encode x = true) fields ->
  Py.encodable can_encode (Py.join sep fields) = true.
Proof.
  intros Hsep Hfields.
  induction Hfields as [|x fields Hx Hfields IH]; [reflexivity|].
  destruct fields as [|y fields]; [exact Hx|].
  change (Py.join sep (x :: y :: fields))
    with (x +:+ sep +:+ Py.join sep (y :: fields)).
  now rewrite !encodable_append, Hx, Hsep, IH.
Qed.


(** The header can be written to a text file of any encoding. *)
Lemma header_encodable (can_encode : ascii -> bool) (n_channels : Z) :
  Py.encodable can_encode (Py.join TAB (header n_channels)) = true.
Proof.
  apply join_encodable; [reflexivity|]. unfold header.
  constructor; [reflexivity|].
  apply Forall_map, Forall_forall. intros i _. cbn beta.
  now rewrite encodable_append, str_int_encodable.
Qed.

(** [str] of a float prints, whatever the rendering. *)
Lemma str_of_all_graph (render : Py.rendering) (x : float) :
  Py.all_graph (Py.str_of render x) = true.
Proof.
  unfold Py.str_of. induction (render x) as [|c l IH]; [reflexivity|].
  cbn [Py.float_text Py.all_graph]. rewrite IH. now destruct c.
Qed.

(** So a data row can be written to a text file of any encoding. *)
Lemma data_row_encodable (can_encode : ascii -> bool)
  (str_float : Py.rendering) (t : Z) (data : list float) :
  Py.encodable can_encode (data_row str_float t data) = true.
Proof.
  unfold data_row. rewrite encodable_append.
  apply andb_true_iff. split; [reflexivity|].
  apply join_encodable; [reflexivity|].
  constructor; [apply str_int_encodable|].
  apply Forall_map, Forall_forall. intros x _.
  apply all_graph_spec, str_of_all_graph.
Qed.

(** A message row can be encoded exactly when its message can. *)
Lemma message_row_encodable (can_encode : ascii -> bool) (t : Z)
  (msg : string) :
  Py.encodable can_encode (message_row t msg) =
    Py.encodable can_encode msg.
Proof.
  unfold message_row. cbn [Py.fmt_s].
  rewrite !encodable_append, str_int_encodable. reflexivity.
Qed.

(** ** Writing to the log under the lock *)

(** The three steps shared by [log] and by the thread's row writer: take
    [_loglock], write, release it. *)
Lemma locked_write (text : string) (s : state) (content : string) :
  file_closed (_logfile (self s)) = false ->
  _loglock (self s) = false ->
  log_content s = Some content ->
  Py.encodable (encoding (env s)) text = true ->
  exists s',
    (lock_acquire ;;
     logfile <- gets (fun s => _logfile (self s)) ;;
     in_env (file_write logfile text) ;;
     lock_release) s = (s', Ok tt) /\
    self s' = self s /\
    clock (env s') = clock (env s) /\
    mpdev (env s') = mpdev (env s) /\
    encoding (env s') = encoding (env s) /\
    log_content s' = Some (content +:+ text) /\
    trace (env s') =
      trace (env s) ++
      [LockAcquire; FileWrite (file_name (_logfile (self s))) text;
       LockRelease].
Proof.
  destruct s as [o w]. unfold log_content. cbn [self env].
  intros Hopen Hfree Hcontent Htext.
  eexists. split.
  { run. rewrite Hfree. run. rewrite Hopen. run. rewrite Htext. run.
    reflexivity. }
  cbn [self env fs trace clock mpdev encoding]. repeat split.
  - destruct o; cbn in *. now subst.
  - cbn. rewrite lookup_alter_eq, Hcontent. reflexivity.
  - rewrite <- !app_assoc. reflexivity.
Qed.

(** While the lock is held, a writer waits: nothing is written. *)
Lemma locked_write_waits (text : string) (s : state) :
  _loglock (self s) = true ->
  (lock_acquire ;;
   logfile <- gets (fun s => _logfile (self s)) ;;
   in_env (file_write logfile text) ;;
   lock_release) s = (s, Raise NeverReturns).
Proof.
  destruct s as [o w]. cbn [self]. intros Hheld. run. rewrite Hheld.
  reflexivity.
Qed.

(** A text that the encoding of the log file cannot encode is refused by
    the write, after the lock was taken and before it would be released:
    nothing is written, and the lock stays held. *)
Lemma locked_write_refused (text : string) (s : state) :
  file_closed (_logfile (self s)) = false ->
  _loglock (self s) = false ->
  Py.encodable (encoding (env s)) text = false ->
  exists s',
    (lock_acquire ;;
     logfile <- gets (fun s => _logfile (self s)) ;;
     in_env (file_write logfile text) ;;
     lock_release) s = (s', Raise UnicodeEncodeError) /\
    fs (env s') = fs (env s) /\
    trace (env s') = trace (env s) ++ [LockAcquire] /\
    _loglock (self s') = true.
Proof.
  destruct s as [o w]. cbn [self env]. intros Hopen Hfree Htext.
  eexists. split.
  { run. rewrite Hfree. run. rewrite Hopen. run. rewrite Htext.
    reflexivity. }
  now cbn.
Qed.

(** C8, as the code has it. On an open session and whatever [_recording]
    says, [log(msg)] with a message that the encoding of the log file can
    encode appends the row [MSG, timestamp, msg] to the log file and
    returns, changing no attribute; a message that the encoding cannot
    encode makes the write raise [UnicodeEncodeError], with nothing
    appended and [_loglock] left held.  The write sits between an acquire
    and a release of [_loglock], the lock that the write of a data row by
    the sample processing thread sits between: while the lock is held,
    [log] and the thread's writer both wait and write nothing; while it
    is free, each takes it, writes and releases it. *)
Theorem log_appends_message_row (msg : string) (s : state)
  (content : string) :
  file_closed (_logfile (self s)) = false ->
  log_content s = Some content ->
  let row := message_row (timestamp_now s) msg in
  let name := file_name (_logfile (self s)) in
  row = NEWLINE +:+ "MSG" +:+ TAB +:+ Py.str_int (timestamp_now s) +:+
        TAB +:+ msg /\
  if _loglock (self s) then
    log msg s = (s, Raise NeverReturns) /\
    forall str_float t data,
      sp_write_row str_float t data s = (s, Raise NeverReturns)
  else
    (if Py.encodable (encoding (env s)) msg then
       exists s',
         log msg s = (s', Ok tt) /\
         self s' = self s /\
         log_content s' = Some (content +:+ row) /\
         trace (env s') =
           trace (env s) ++ [LockAcquire; FileWrite name row; LockRelease]
     else
       exists s',
         log msg s = (s', Raise UnicodeEncodeError) /\
         log_content s' = Some content /\
         trace (env s') = trace (env s) ++ [LockAcquire] /\
         _loglock (self s') = true) /\
    forall str_float t data,
      exists s',
        sp_write_row str_float t data s = (s', Ok tt) /\
        log_content s' = Some (content +:+ data_row str_float t data) /\
        trace (env s') =
          trace (env s) ++
          [LockAcquire; FileWrite name (data_row str_float t data);
           LockRelease].
Proof.
  intros Hopen Hcontent row name. split; [reflexivity|].
  assert (Hlog :
    log msg s =
      (lock_acquire ;;
       logfile <- gets (fun s => _logfile (self s)) ;;
       in_env (file_write logfile row) ;;
       lock_release) s).
  { unfold log. erewrite bind_Ok; [reflexivity|].
    destruct s as [o w]. reflexivity. }
  destruct (_loglock (self s)) eqn:Hlock.
  - split.
    + rewrite Hlog. now apply locked_write_waits.
    + intros str_float t data. now apply locked_write_waits.
  - split.
    + destruct (Py.encodable (encoding (env s)) msg) eqn:Hmsg.
      * destruct (locked_write row s content Hopen Hlock Hcontent)
          as (s' & Hrun & Hself & _ & _ & _ & Hcontent' & Htrace).
        { subst row. now rewrite message_row_encodable. }
        exists s'. rewrite Hlog. now repeat split.
      * destruct (locked_write_refused row s Hopen Hlock)
          as (s' & Hrun & Hfs & Htrace & Hheld).
        { subst row. now rewrite message_row_encodable. }
        exists s'. rewrite Hlog. split; [exact Hrun|].
        split; [|now split].
        unfold log_content in *.
        assert (Hfile : _logfile (self s') = _logfile (self s)).
        { clear - Hrun Hlock Hopen. destruct s as [o w].
          cbn [self env] in *. revert Hrun. run. rewrite Hlock. run.
          rewrite Hopen. run.
          destruct (Py.encodable _ _); run; now intros [= <-]. }
        now rewrite Hfile, Hfs.
    + intros str_float t data.
      destruct (locked_write (data_row str_float t data) s content
                  Hopen Hlock Hcontent (data_row_encodable _ _ _ _))
        as (s' & Hrun & _ & _ & _ & _ & Hcontent' & Htrace).
      exists s'. now repeat split.
Qed.

Lemma log_appends_message_row_witness :
  exists s',
    log "hello" (demo 3 false) = (s', Ok tt) /\
    log_content s' =
      Some (Py.join TAB (header 3) +:+ message_row 2000 "hello").
Proof.
  destruct (log_appends_message_row "hello" (demo 3 false)
              (Py.join TAB (header 3)) eq_refl eq_refl)
    as [_ [(s' & Hrun & _ & Hlog & _) _]].
  exists s'. split; [exact Hrun | exact Hlog].
Defined.

(** C8, as the claim has it, fails for a message that the encoding of
    the log file cannot encode: on a session whose log file is ASCII,
    [log] of a message with an accented letter raises, and no row is
    appended. *)
Lemma accented_message_is_not_logged :
  ~ logs_message accented (demo 3 false).
Proof.
  intros (s' & content & Hrun & _). vm_compute in Hrun. discriminate Hrun.
Qed.

(** While another writer holds [_loglock], [log] waits and writes
    nothing. *)
Lemma log_waits_for_lock (msg : string) (s : state) :
  _loglock (self s) = true -> log msg s = (s, Raise NeverReturns).
Proof.
  intros Hheld. unfold log. erewrite bind_Ok.
  - now apply locked_write_waits.
  - destruct s. reflexivity.
Qed.

(** ** Recording to the buffer: [start_recording_to_buffer] *)

(** The state after [start_recording_to_buffer(channel)]. *)
Lemma start_recording_to_buffer_spec (channel : Z) (s : state) :
  exists s',
    start_recording_to_buffer channel s = (s', Ok tt) /\
    _buffer (self s') = [] /\
    _buffch (self s') = channel /\
    _recordtobuff (self s') = true /\
    _newestsample (self s') = _newestsample (self s) /\
    _n_channels (self s') = _n_channels (self s) /\
    _starting_time (self s') = _starting_time (self s) /\
    _logfile (self s') = _logfile (self s) /\
    _loglock (self s') = _loglock (self s) /\
    _connected (self s') = _connected (self s) /\
    _recording (self s') = _recording (self s) /\
    fs (env s') = fs (env s) /\
    encoding (env s') = encoding (env s) /\
    trace (env s') = trace (env s) ++ [FlagSet recordtobuff true].
Proof.
  destruct s as [o w]. eexists. split; [reflexivity|]. now cbn.
Qed.

(** C6, as the code has it. [start_recording_to_buffer(channel)] checks
    nothing: for every channel index it clears the buffer, stores the
    index, sets [_recordtobuff] and returns. *)
Theorem start_recording_to_buffer_accepts (channel : Z) (s : state) :
  exists s',
    start_recording_to_buffer channel s = (s', Ok tt) /\
    _buffer (self s') = [] /\
    _buffch (self s') = channel /\
    _recordtobuff (self s') = true /\
    trace (env s') = trace (env s) ++ [FlagSet recordtobuff true].
Proof.
  destruct (start_recording_to_buffer_spec channel s)
    as (s' & Hrun & Hbuf & Hch & Hrtb & _ & _ & _ & _ & _ & _ & _ & _ & _ &
        Htr).
  exists s'. now repeat split.
Qed.

(** An index that is out of range is only met by the thread, at the
    next novel sample: adding to the buffer raises [IndexError]. *)
Lemma sp_to_buffer_out_of_range (s : state) :
  let n := Z.of_nat (length (items (_newestsample (self s)))) in
  ~ (- n <= _buffch (self s) < n)%Z ->
  sp_to_buffer s = (s, Raise IndexError).
Proof.
  intros n Hch. destruct s as [o w]. cbn [self] in *.
  unfold sp_to_buffer. run. unfold Py.getitem. fold n.
  destruct (Z.ltb_spec (_buffch o) 0);
    [destruct (Z.leb_spec 0 (_buffch o + n)),
              (Z.ltb_spec (_buffch o + n) n)
    |destruct (Z.leb_spec 0 (_buffch o)), (Z.ltb_spec (_buffch o) n)];
    try lia; reflexivity.
Qed.

(** C6, as the claim has it, fails: with 3 channels, channel 5 is
    accepted and the flag is set. *)
Lemma start_recording_to_buffer_channel_5_of_3 :
  ~ fails_fast 5 (demo 3 false).
Proof. intros (e & Hraise & _). discriminate Hraise. Qed.

(** ** Opening a session: [__init__] *)

Lemma check_returncode_success (r : dll_result) :
  String.eqb (check_returncode r) "MPSUCCESS" = true <-> r = Returned 1.
Proof.
  destruct r as [code|]; cbn; [|easy].
  destruct (Z.eqb_spec code 1); cbn; split; congruence.
Qed.

Lemma check_returncode_failure (r : dll_result) :
  r <> Returned 1 ->
  negb (String.eqb (check_returncode r) "MPSUCCESS") = true.
Proof.
  intros Hr. destruct (String.eqb _ _) eqn:E; [|reflexivity].
  now apply check_returncode_success in E.
Qed.

(** C5. Opening with a channel count outside 1..16 fails and leaves the
    world as it was: no call of the driver, no file, no event.  With a
    supported device name and a sample rate other than zero, which the
    two earlier checks of [__init__] ask for, the exception is the one of
    the channel check. *)
Theorem init_rejects_channel_count (devname : string) (n_channels : Z)
  (samplerate : Z) (logfile : string) (overwrite : bool) (w : world) :
  ~ (1 <= n_channels <= 16)%Z ->
  (exists e,
     __init__ devname n_channels samplerate logfile overwrite w =
       (w, Raise e)) /\
  (is_Some (_supported !! Py.upper devname) ->
   samplerate <> 0%Z ->
   __init__ devname n_channels samplerate logfile overwrite w =
     (w, Raise (ChannelsOutOfRange n_channels))).
Proof.
  intros Hn.
  assert (Hcheck :
    negb ((0 <? n_channels)%Z && (n_channels <=? 16)%Z) = true).
  { destruct (Z.ltb_spec 0 n_channels), (Z.leb_spec n_channels 16);
      cbn; try reflexivity. lia. }
  unfold __init__. split.
  - destruct (_supported !! Py.upper devname); [|now eexists].
    destruct (samplerate =? 0)%Z; [now eexists|].
    rewrite Hcheck. now eexists.
  - intros [devcode ->] Hrate.
    destruct (Z.eqb_spec samplerate 0); [contradiction|].
    now rewrite Hcheck.
Qed.

Lemma init_rejects_channel_count_witness :
  __init__ "MP150" 17 200 "default" false with_old_log =
    (with_old_log, Raise (ChannelsOutOfRange 17)).
Proof.
  apply (init_rejects_channel_count "MP150" 17 200 "default" false
           with_old_log).
  - lia.
  - now eexists.
  - lia.
Defined.

(** The name of the log file when nothing stands in the way: the file
    does not exist yet, or it may be overwritten. *)
Lemma set_logfilename_plain (logfile : string) (overwrite : bool)
  (w : world) :
  overwrite = true \/ fs w !! (logfile +:+ "_BIOPAC_data.tsv") = None ->
  set_logfilename logfile overwrite w =
    (w, Ok (logfile +:+ "_BIOPAC_data.tsv")).
Proof.
  intros H. unfold set_logfilename, isfile. run. cbn [Py.fmt_s].
  destruct H as [-> | ->].
  - now rewrite andb_false_r.
  - rewrite bool_decide_eq_false_2; [reflexivity|].
    now intros [? ?].
Qed.

(** The search for an unused name stops in its first iteration, on the
    [%d] conversion of the name of the log file. *)
Lemma find_unused_logfilename_raises (steps : nat) (logfile : string)
  (i : Z) (logfilename : string) (w : world) :
  is_Some (fs w !! logfilename) ->
  find_unused_logfilename (S steps) logfile i logfilename w =
    (w, Raise TypeError).
Proof.
  intros Htaken. cbn [find_unused_logfilename]. unfold isfile. run.
  now rewrite bool_decide_eq_true_2.
Qed.

Lemma set_logfilename_taken (logfile : string) (w : world) :
  is_Some (fs w !! (logfile +:+ "_BIOPAC_data.tsv")) ->
  set_logfilename logfile false w = (w, Raise TypeError).
Proof.
  intros Htaken. unfold set_logfilename, isfile. run. cbn [Py.fmt_s].
  rewrite bool_decide_eq_true_2 by assumption. cbn [andb negb].
  now apply find_unused_logfilename_raises.
Qed.

(** C9, at the input where the code departs from it. When the log file
    exists and may not be overwritten, [__init__] does not find another
    name: the first attempt to build one raises [TypeError], before any
    call of the driver and before any file is opened. *)
Theorem init_existing_logfile_raises (devname : string) (n_channels : Z)
  (samplerate : Z) (logfile : string) (w : world) :
  is_Some (_supported !! Py.upper devname) ->
  samplerate <> 0%Z ->
  (1 <= n_channels <= 16)%Z ->
  is_Some (fs w !! (logfile +:+ "_BIOPAC_data.tsv")) ->
  __init__ devname n_channels samplerate logfile false w =
    (w, Raise TypeError).
Proof.
  intros [devcode Hdev] Hrate Hn Htaken. unfold __init__. rewrite Hdev.
  destruct (Z.eqb_spec samplerate 0); [contradiction|].
  destruct (Z.ltb_spec 0 n_channels), (Z.leb_spec n_channels 16);
    try lia. cbn [andb negb].
  erewrite bind_Raise; [reflexivity|].
  now apply set_logfilename_taken.
Qed.

Lemma init_existing_logfile_raises_witness :
  __init__ "MP150" 3 200 "default" false with_old_log =
    (with_old_log, Raise TypeError).
Proof.
  apply (init_existing_logfile_raises "MP150" 3 200 "default"
           with_old_log).
  - now eexists.
  - lia.
  - lia.
  - now eexists.
Defined.

(** Whatever the trace before, a successful connect followed by events
    that do not disconnect leaves the device connected. *)
Lemma device_connected_after_connect (tr rest : list event)
  (devcode method : Z) (how : string) :
  Forall (fun e => forall r, e <> Dll disconnectMPDev r) rest ->
  device_connected
    (tr ++ Dll (connectMPDev devcode method how) (Returned 1) :: rest) =
    true.
Proof.
  intros Hrest. unfold device_connected.
  rewrite fold_left_app. cbn.
  induction Hrest as [|e rest He _ IH]; [reflexivity|].
  cbn. destruct e as [[] r| | | | | | | | | |]; try exact IH.
  - now destruct (String.eqb _ _).
  - now destruct (He r).
Qed.

(** C4, as the code has it. When a step of the open sequence does not
    succeed, after the steps before it did, [__init__] raises the
    exception of that step with the driver's answer, having made the
    calls up to that step and nothing else: no later step, no file, no
    thread, and no [disconnectMPDev].  Nothing is unwound: past a
    successful connect the device stays connected. *)
Theorem init_aborts_without_unwinding (devname : string)
  (n_channels samplerate : Z) (logfile : string) (overwrite : bool)
  (w : world) (devcode : Z) (logfilename : string)
  (done later : list (dll_call * (dll_result -> error)))
  (call : dll_call) (exception : dll_result -> error) :
  _supported !! Py.upper devname = Some devcode ->
  samplerate <> 0%Z ->
  (1 <= n_channels <= 16)%Z ->
  set_logfilename logfile overwrite w = (w, Ok logfilename) ->
  open_sequence devcode (1000 / inject_Z samplerate)%Q n_channels =
    done ++ (call, exception) :: later ->
  Forall (fun step => mpdev w (fst step) = Returned 1) done ->
  mpdev w call <> Returned 1 ->
  let new :=
    map (fun step => Dll (fst step) (Returned 1)) done ++
    [Dll call (mpdev w call)] in
  __init__ devname n_channels samplerate logfile overwrite w =
    ({| mpdev := mpdev w; clock := clock w; fs := fs w;
        can_open := can_open w; encoding := encoding w;
        trace := trace w ++ new |},
     Raise (exception (mpdev w call))) /\
  (forall r, Dll disconnectMPDev r ∉ new) /\
  (done <> [] -> device_connected (trace w ++ new) = true).
Proof.
  intros Hdev Hrate Hn Hname Hseq Hdone Hfail new.
  assert (Hlen : (length done < 4)%nat).
  { apply (f_equal length) in Hseq. rewrite length_app in Hseq.
    cbn in Hseq. lia. }
  assert (Hnew : forall r, Dll disconnectMPDev r ∉ new).
  { intros r Hin. unfold open_sequence in Hseq. subst new.
    destruct done as [|s1 [|s2 [|s3 [|s4 done']]]];
      [| | | |cbn in Hlen; lia]; simplify_eq/=;
      repeat (apply elem_of_cons in Hin as [Hin|Hin]; [discriminate|]);
      now apply elem_of_nil in Hin. }
  split; [|split; [exact Hnew|]].
  - apply check_returncode_failure in Hfail.
    unfold __init__. rewrite Hdev.
    destruct (Z.eqb_spec samplerate 0); [contradiction|].
    destruct (Z.ltb_spec 0 n_channels), (Z.leb_spec n_channels 16);
      try lia. cbn [andb negb].
    erewrite bind_Ok by exact Hname.
    unfold open_sequence in Hseq. subst new.
    destruct done as [|s1 [|s2 [|s3 [|s4 done']]]];
      [| | | |cbn in Hlen; lia]; simplify_eq/=;
      repeat match goal with
             | H : Forall _ (_ :: _) |- _ =>
                 apply Forall_cons in H as [? H]
             end;
      cbn [fst] in *;
      repeat (run;
              match goal with
              | H : mpdev w _ = Returned 1 |- _ => rewrite H; clear H
              end;
              cbn [check_returncode Z.eqb Pos.eqb String.eqb Ascii.eqb
                   Bool.eqb negb]);
      run; rewrite Hfail; rewrite <- ?app_assoc; reflexivity.
  - intros Hne. unfold open_sequence in Hseq. subst new.
    destruct done as [|[c1 x1] done]; [contradiction|].
    cbn [map fst app]. injection Hseq as <- _ Hseq.
    apply device_connected_after_connect.
    apply Forall_forall. intros e He r ->.
    now apply (Hnew r), elem_of_cons; right.
Qed.

Lemma init_aborts_without_unwinding_witness :
  __init__ "MP150" 3 200 "demo" false refusing_rate =
    ({| mpdev := mpdev refusing_rate; clock := 10; fs := ∅;
        can_open := can_open refusing_rate;
        encoding := encoding refusing_rate;
        trace := [Dll (connectMPDev 101 11 "auto") (Returned 1);
                  Dll (setSampleRate (1000 / inject_Z 200)) (Returned 0)] |},
     Raise (FailedToSetSamplerate (Returned 0))).
Proof.
  apply (init_aborts_without_unwinding "MP150" 3 200 "demo" false
           refusing_rate 101 "demo_BIOPAC_data.tsv"
           [(connectMPDev 101 11 "auto", FailedToConnect)]
           [(setAcqChannels
               (replicate 3 1%Z ++ replicate 13 0%Z), FailedToSetChannels);
            (startAcquisition, FailedToStartAcquisition)]
           (setSampleRate (1000 / inject_Z 200)) FailedToSetSamplerate).
  - reflexivity.
  - lia.
  - lia.
  - reflexivity.
  - reflexivity.
  - repeat constructor.
  - discriminate.
Defined.

(** C4, as the claim has it, fails: the driver connects, then refuses the
    sample rate; [__init__] raises and the device is still connected. *)
Lemma init_leaves_device_connected :
  ~ unwinds_on_failure (__init__ "MP150" 3 200 "demo" false refusing_rate).
Proof.
  intros H.
  specialize (H (FailedToSetSamplerate (Returned 0)) eq_refl).
  discriminate H.
Qed.

(** ** Rows of the log, written and read back *)

Lemma split_without_sep (sep : ascii) (x : string) :
  Py.contains sep x = false -> Py.split sep x = [x].
Proof.
  induction x as [|c x IH]; cbn [Py.split Py.contains]; [reflexivity|].
  intros H. apply orb_false_elim in H as [-> Hx].
  now rewrite (IH Hx).
Qed.

Lemma split_field (sep : ascii) (x rest : string) :
  Py.contains sep x = false ->
  Py.split sep (x +:+ String sep rest) = x :: Py.split sep rest.
Proof.
  induction x as [|c x IH].
  - intros _. change (EmptyString +:+ String sep rest) with (String sep rest).
    cbn [Py.split]. now rewrite Ascii.eqb_refl.
  - change (String c x +:+ String sep rest)
      with (String c (x +:+ String sep rest)).
    cbn [Py.split Py.contains].
    intros H. apply orb_false_elim in H as [-> Hx].
    now rewrite (IH Hx).
Qed.

(** Splitting undoes joining when no field holds the separator. *)
Lemma split_join (sep : ascii) (fields : list string) :
  fields <> [] ->
  Forall (fun x => Py.contains sep x = false) fields ->
  Py.split sep (Py.join (String sep EmptyString) fields) = fields.
Proof.
  intros Hne Hfields.
  induction Hfields as [|x fields Hx Hfields IH]; [contradiction|].
  destruct fields as [|y fields].
  - now apply split_without_sep.
  - change (Py.join (String sep EmptyString) (x :: y :: fields))
      with (x +:+ String sep (Py.join (String sep EmptyString) (y :: fields))).
    rewrite split_field by assumption.
    now rewrite IH.
Qed.

















(** ** Closing a session: [close] *)

Lemma stop_recording_spec (s : state) :
  file_closed (_logfile (self s)) = false ->
  _loglock (self s) = false ->
  exists s',
    stop_recording s = (s', Ok tt) /\
    _recording (self s') = false /\
    _logfile (self s') = _logfile (self s) /\
    _loglock (self s') = false /\
    _connected (self s') = _connected (self s) /\
    _newestsample (self s') = _newestsample (self s) /\
    _n_channels (self s') = _n_channels (self s) /\
    _buffer (self s') = _buffer (self s) /\
    mpdev (env s') = mpdev (env s) /\
    fs (env s') = fs (env s) /\
    trace (env s') =
      trace (env s) ++
      stop_recording_events (file_name (_logfile (self s))).
Proof.
  destruct s as [o w]. cbn [self env]. intros Hopen Hfree.
  eexists. split.
  { unfold stop_recording. run. rewrite Hfree. run. rewrite Hopen. run.
    reflexivity. }
  cbn. rewrite <- !app_assoc. now repeat split.
Qed.

(** C3, as the code has it. [close] on an open session first stops the
    recording to the log (when it was on: the flag is cleared, then the
    file is flushed under [_loglock]), then closes the log file, and only
    then clears [_connected] and disconnects; it does not join the
    thread.  After it the flags are off and the file is closed, and a
    thread that tests [_connected] from then on leaves its loop without
    touching the log. *)
Theorem close_order (s : state) :
  file_closed (_logfile (self s)) = false ->
  _loglock (self s) = false ->
  let name := file_name (_logfile (self s)) in
  let result := mpdev (env s) disconnectMPDev in
  let new :=
    (if _recording (self s) then stop_recording_events name else []) ++
    [FileClose name; FlagSet connected false; Dll disconnectMPDev result] in
  exists s',
    fst (close s) = s' /\
    snd (close s) =
      (if String.eqb (check_returncode result) "MPSUCCESS" then Ok tt
       else Raise (FailedToClose result)) /\
    trace (env s') = trace (env s) ++ new /\
    happens_before is_log_closed is_alive_cleared new = true /\
    closes_log_after_loop_stopped new = false /\
    _recording (self s') = false /\
    file_closed (_logfile (self s')) = true /\
    _connected (self s') = false /\
    (forall str_float fetches,
       _sampleprocesser str_float fetches s' = (s', Ok Finished)).
Proof.
  intros Hopen Hfree name result new.
  assert (Hloop : forall s' : state, _connected (self s') = false ->
    forall str_float fetches,
      _sampleprocesser str_float fetches s' = (s', Ok Finished)).
  { intros s' Hoff str_float [|f fetches]; cbn [_sampleprocesser]; run;
      now rewrite Hoff. }
  eexists. split; [reflexivity|].
  unfold close. subst name result new.
  destruct (_recording (self s)) eqn:Hrec.
  - destruct (stop_recording_spec s Hopen Hfree)
      as (s1 & Hstop & Hrec1 & Hfile1 & _ & _ & _ & _ & _ & Hdll1 & _ & Htr1).
    erewrite bind_Ok by reflexivity. cbv beta. rewrite Hrec.
    erewrite bind_Ok by exact Hstop.
    destruct s1 as [o1 w1]. cbn [self env] in *. run.
    rewrite Hfile1, Hopen. run. rewrite Hdll1, Htr1.
    destruct (String.eqb _ _); cbn; rewrite <- !app_assoc;
      repeat split; try easy; apply Hloop; reflexivity.
  - erewrite bind_Ok by reflexivity. cbv beta. rewrite Hrec.
    destruct s as [o w]. cbn [self env] in *. run.
    rewrite Hopen. run.
    destruct (String.eqb _ _); cbn; rewrite <- !app_assoc;
      repeat split; try easy; apply Hloop; reflexivity.
Qed.

Lemma close_order_witness :
  exists s',
    fst (close (demo 3 true)) = s' /\
    trace (env s') =
      stop_recording_events demo_name ++
      [FileClose demo_name; FlagSet connected false;
       Dll disconnectMPDev (Returned 1)] /\
    _connected (self s') = false.
Proof.
  destruct (close_order (demo 3 true) eq_refl eq_refl)
    as (s' & Hrun & _ & Htrace & _ & _ & _ & _ & Hoff & _).
  exists s'. split; [exact Hrun|]. split; [exact Htrace | exact Hoff].
Defined.

(** C3, as the claim has it, fails: in the events of [close] on a session
    that is recording, the log file is closed before [_connected] is
    cleared, and the thread is never joined. *)
Lemma close_closes_log_first :
  closes_log_after_loop_stopped
    (trace (env (fst (close (demo 3 true))))) <> true.
Proof. vm_compute. discriminate. Qed.

(** When the thread has read [_recording] as true for a novel sample and
    [close] runs before the thread takes the lock, the thread then writes
    to the closed log file: the write is refused with [ValueError], and
    the thread ends holding the lock. *)
Lemma row_written_after_close (str_float : Py.rendering) :
  let f := {| fetch_result := Returned 1; fetch_values := [2.5%float];
              fetch_clock := 12%float |} in
  exists s1 td s2 s3,
    sp_novel f (demo 1 true) = (s1, Ok (Some td)) /\
    _recording (self s1) = true /\
    close s1 = (s2, Ok tt) /\
    sp_write_row str_float (fst td) (snd td) s2 = (s3, Raise ValueError) /\
    file_closed (_logfile (self s3)) = true /\
    _loglock (self s3) = true.
Proof.
  intros f. do 4 eexists.
  split; [vm_compute; reflexivity|].
  split; [reflexivity|].
  split; [vm_compute; reflexivity|].
  split; [vm_compute; reflexivity|].
  split; reflexivity.
Qed.

(** ** What [__init__] returns *)

Lemma bind_Ok_inv {S A B : Type} (m : M S A) (k : A -> M S B) s s' b :
  bind m k s = (s', Ok b) ->
  exists s1 a, m s = (s1, Ok a) /\ k a s1 = (s', Ok b).
Proof.
  unfold bind. destruct (m s) as [s1 [a|e]]; [|discriminate].
  intros H. now exists s1, a.
Qed.

(** Splitting a successful run of [m1 ;; m2 ;; ...] into its steps. *)
Ltac invert_binds H :=
  lazymatch type of H with
  | bind _ _ _ = _ =>
      let s1 := fresh "s" in
      let a := fresh "a" in
      let H1 := fresh "Hstep" in
      apply bind_Ok_inv in H; destruct H as (s1 & a & H1 & H);
      cbv beta in H; invert_binds H
  | _ => idtac
  end.

Lemma raise_unless_success_Ok {S : Type} (r : dll_result)
  (exception : dll_result -> error) (s s' : S) :
  raise_unless_success r exception s = (s', Ok tt) ->
  r = Returned 1 /\ s' = s.
Proof.
  unfold raise_unless_success.
  destruct (String.eqb _ _) eqn:E; cbn; [|discriminate].
  apply check_returncode_success in E. now intros [= ->].
Qed.

(** The object of a successful [__init__]: the channel count is in
    1..16, the newest sample is the array of that many zeros, nothing is
    recorded, the log file is open and holds the header, the lock is
    free, and the thread is started. *)
Lemma init_Ok (devname : string) (n_channels samplerate : Z)
  (logfile : string) (overwrite : bool) (w w' : world) (o : BioPac) :
  __init__ devname n_channels samplerate logfile overwrite w = (w', Ok o) ->
  (1 <= n_channels <= 16)%Z /\
  _n_channels o = n_channels /\
  _newestsample o = ndarray (numpy.zeros n_channels) /\
  _buffer o = [] /\
  _recording o = false /\ _recordtobuff o = false /\ _connected o = true /\
  _loglock o = false /\ file_closed (_logfile o) = false /\
  file_name (_logfile o) = _logfilename o /\
  fs w' !! _logfilename o = Some (Py.join TAB (header n_channels)) /\
  snd (set_logfilename logfile overwrite w) = Ok (_logfilename o).
Proof.
  unfold __init__.
  destruct (_supported !! Py.upper devname) as [devcode|]; [|discriminate].
  destruct (samplerate =? 0)%Z; [discriminate|].
  destruct (Z.ltb_spec 0 n_channels), (Z.leb_spec n_channels 16);
    cbn [andb negb]; try discriminate.
  intros Hinit. invert_binds Hinit.
  unfold ret in Hinit. injection Hinit as <- <-.
  cbv [emit modify] in Hstep11. injection Hstep11 as <- _.
  cbv [open_w bind gets set_fs modify emit ret raise] in Hstep9.
  destruct (can_open _ _); [|discriminate Hstep9].
  injection Hstep9 as <- <-.
  cbv [file_write bind gets set_fs modify emit ret raise file_closed
       file_name] in Hstep10.
  cbn [encoding] in Hstep10.
  destruct (Py.encodable _ _); [|discriminate Hstep10].
  injection Hstep10 as <- _.
  rewrite Hstep. cbn. rewrite lookup_alter_eq, lookup_insert_eq. cbn.
  repeat split; try reflexivity; lia.
Qed.

(** With [overwrite=True] the log file keeps the plain name, and opening
    it leaves the header as its whole content, whatever was in it. *)
Lemma init_overwrite (devname : string) (n_channels samplerate : Z)
  (logfile : string) (w w' : world) (o : BioPac) :
  __init__ devname n_channels samplerate logfile true w = (w', Ok o) ->
  _logfilename o = logfile +:+ "_BIOPAC_data.tsv" /\
  fs w' !! (logfile +:+ "_BIOPAC_data.tsv") =
    Some (Py.join TAB (header n_channels)).
Proof.
  intros Hinit.
  destruct (init_Ok _ _ _ _ _ _ _ _ Hinit)
    as (_ & _ & _ & _ & _ & _ & _ & _ & _ & _ & Hlog & Hname).
  rewrite set_logfilename_plain in Hname by now left.
  injection Hname as Hname. now rewrite <- Hname in Hlog.
Qed.

(** ** Properties kept by the methods *)

Section Keeps.

Context {I : state -> Prop}.

Lemma keeps_ret {A : Type} (a : A) (Q : A -> Prop) :
  Q a -> keeps I (ret a) Q.
Proof. intros Ha s Hs. split; [exact Hs|]. now intros ? [= <-]. Qed.

Lemma keeps_raise {A : Type} (e : error) (Q : A -> Prop) :
  keeps I (raise e) Q.
Proof. intros s Hs. split; [exact Hs|]. intros ? [=]. Qed.

Lemma keeps_of_result {A : Type} (r : result A) (Q : A -> Prop) :
  (forall a, r = Ok a -> Q a) -> keeps I (of_result r) Q.
Proof. intros Hr s Hs. split; [exact Hs|]. exact Hr. Qed.

Lemma keeps_gets {A : Type} (f : state -> A) (Q : A -> Prop) :
  (forall s, I s -> Q (f s)) -> keeps I (gets f) Q.
Proof.
  intros Hf s Hs. split; [exact Hs|]. intros ? [= <-]. now apply Hf.
Qed.

Lemma keeps_bind {A B : Type} (m : M state A) (k : A -> M state B)
  (Q : A -> Prop) (R : B -> Prop) :
  keeps I m Q -> (forall a, Q a -> keeps I (k a) R) ->
  keeps I (bind m k) R.
Proof.
  intros Hm Hk s Hs. destruct (Hm s Hs) as [Hs1 Ha].
  unfold bind. destruct (m s) as [s1 [a|e]]; cbn in *.
  - now apply (Hk a (Ha a eq_refl)).
  - split; [exact Hs1|]. intros ? [=].
Qed.

Lemma keeps_weaken {A : Type} (m : M state A) (Q Q' : A -> Prop) :
  keeps I m Q -> (forall a, Q a -> Q' a) -> keeps I m Q'.
Proof.
  intros Hm HQ s Hs. destruct (Hm s Hs) as [Hs1 Ha].
  split; [exact Hs1|]. intros a Hr. now apply HQ, Ha.
Qed.

Lemma keeps_seq {A B : Type} (m : M state A) (k : A -> M state B)
  (R : B -> Prop) :
  keeps I m (fun _ => True) -> (forall a, keeps I (k a) R) ->
  keeps I (bind m k) R.
Proof. intros Hm Hk. eapply keeps_bind; [exact Hm|]. intros a _. apply Hk. Qed.

Lemma keeps_if {A : Type} (b : bool) (m1 m2 : M state A) (Q : A -> Prop) :
  keeps I m1 Q -> keeps I m2 Q -> keeps I (if b then m1 else m2) Q.
Proof. now destruct b. Qed.

End Keeps.

Section KeepsSample.

Variable P : sample_value -> Z -> Prop.

Lemma keeps_in_env {A : Type} (m : M world A) :
  keeps (about_sample P) (in_env m) (fun _ => True).
Proof.
  intros [o w] Hs. unfold in_env. cbn [env self].
  destruct (m w) as [w' r]. now split.
Qed.

Lemma keeps_on_self (f : BioPac -> BioPac) :
  (forall o, _newestsample (f o) = _newestsample o) ->
  (forall o, _n_channels (f o) = _n_channels o) ->
  keeps (about_sample P) (on_self f) (fun _ => True).
Proof.
  intros Hsample Hn [o w] Hs. unfold about_sample in *. cbn in *.
  now rewrite Hsample, Hn.
Qed.

Lemma keeps_set_newestsample (v : sample_value) :
  (forall s, about_sample P s -> P v (_n_channels (self s))) ->
  keeps (about_sample P) (set_newestsample v) (fun _ => True).
Proof. intros Hv [o w] Hs. split; [|easy]. exact (Hv _ Hs). Qed.

(** Steps that do not assign [_newestsample]. *)
Ltac keeps_step :=
  first
    [ apply keeps_in_env
    | apply keeps_on_self; reflexivity
    | apply keeps_ret; exact Logic.I
    | apply keeps_raise
    | apply keeps_gets; intros; exact Logic.I
    | apply keeps_of_result; intros; exact Logic.I
    | apply keeps_if
    | apply keeps_seq; [|intros ?] ].

Ltac keeps_steps := repeat keeps_step.

Lemma keeps_set_flag (f : flag) (b : bool) :
  keeps (about_sample P) (set_flag f b) (fun _ => True).
Proof. unfold set_flag. keeps_steps. Qed.

Lemma keeps_lock_acquire :
  keeps (about_sample P) lock_acquire (fun _ => True).
Proof. unfold lock_acquire, set_loglock. keeps_steps. Qed.

Lemma keeps_lock_release :
  keeps (about_sample P) lock_release (fun _ => True).
Proof. unfold lock_release, set_loglock. keeps_steps. Qed.

Lemma keeps_get_timestamp :
  keeps (about_sample P) get_timestamp (fun _ => True).
Proof. unfold get_timestamp. keeps_steps. Qed.

Lemma keeps_stop_recording :
  keeps (about_sample P) stop_recording (fun _ => True).
Proof.
  unfold stop_recording.
  repeat first [apply keeps_set_flag | apply keeps_lock_acquire
               | apply keeps_lock_release | keeps_step].
Qed.

Lemma keeps_log (msg : string) :
  keeps (about_sample P) (log msg) (fun _ => True).
Proof.
  unfold log.
  repeat first [apply keeps_get_timestamp | apply keeps_lock_acquire
               | apply keeps_lock_release | keeps_step].
Qed.

Lemma keeps_close : keeps (about_sample P) close (fun _ => True).
Proof.
  unfold close, raise_unless_success, set_logfile.
  repeat first [apply keeps_stop_recording | apply keeps_set_flag
               | keeps_step].
Qed.

Lemma keeps_start_recording_to_buffer (channel : Z) :
  keeps (about_sample P) (start_recording_to_buffer channel)
    (fun _ => True).
Proof.
  unfold start_recording_to_buffer, set_buffer, set_buffch.
  repeat first [apply keeps_set_flag | keeps_step].
Qed.

Lemma keeps_sp_write_row (str_float : Py.rendering) (t : Z)
  (data : list float) :
  keeps (about_sample P) (sp_write_row str_float t data) (fun _ => True).
Proof.
  unfold sp_write_row.
  repeat first [apply keeps_lock_acquire | apply keeps_lock_release
               | keeps_step].
Qed.

Lemma keeps_sp_record (str_float : Py.rendering) (td : Z * list float) :
  keeps (about_sample P) (sp_record str_float td) (fun _ => True).
Proof.
  unfold sp_record, sp_to_buffer, set_buffer.
  repeat first [apply keeps_sp_write_row | keeps_step].
Qed.

End KeepsSample.

(** ** The length of the newest sample *)

Lemma length_zeros (n : Z) : length (numpy.zeros n) = Z.to_nat n.
Proof. apply length_replicate. Qed.

(** The tuple made from the driver's array has one item per channel,
    whatever the driver wrote. *)
Lemma length_c_double_array (n : Z) (values : list float) :
  length (c_double_array n values) = Z.to_nat n.
Proof.
  unfold c_double_array.
  rewrite length_take, length_app, length_zeros. lia.
Qed.

Lemma keeps_sp_fetch (n : Z) (f : fetch) :
  keeps (channels_ok n) (sp_fetch f)
    (fun td => length (snd td) = Z.to_nat n).
Proof.
  unfold sp_fetch.
  eapply keeps_bind with (Q := fun n_channels => n_channels = n).
  { apply keeps_gets. now intros s [Hn _]. }
  intros ? ->.
  apply keeps_seq; [apply keeps_in_env|intros _].
  apply keeps_seq; [apply keeps_get_timestamp|intros t].
  apply keeps_seq.
  { unfold raise_unless_success. apply keeps_if.
    - apply keeps_raise.
    - now apply keeps_ret. }
  intros _. apply keeps_ret. apply length_c_double_array.
Qed.

Lemma keeps_sp_novel (n : Z) (f : fetch) :
  keeps (channels_ok n) (sp_novel f) (fun _ => True).
Proof.
  unfold sp_novel.
  eapply keeps_bind; [apply keeps_sp_fetch|]. intros td Htd.
  apply keeps_seq; [now apply keeps_gets|intros newestsample].
  apply keeps_seq; [now apply keeps_of_result|intros novel].
  apply keeps_if; [|now apply keeps_ret].
  apply keeps_seq; [|intros _; now apply keeps_ret].
  apply keeps_set_newestsample. now intros s [Hn _].
Qed.

Lemma keeps_sp_iteration (str_float : Py.rendering) (n : Z) (f : fetch) :
  keeps (channels_ok n) (sp_iteration str_float f) (fun _ => True).
Proof.
  unfold sp_iteration.
  apply keeps_seq; [apply keeps_sp_novel|].
  intros [td|]; [apply keeps_sp_record | now apply keeps_ret].
Qed.

Lemma keeps_sampleprocesser (str_float : Py.rendering) (n : Z)
  (fetches : list fetch) :
  keeps (channels_ok n) (_sampleprocesser str_float fetches)
    (fun _ => True).
Proof.
  induction fetches as [|f fetches IH]; cbn [_sampleprocesser].
  - apply keeps_seq; [now apply keeps_gets|intros alive].
    now apply keeps_ret.
  - apply keeps_seq; [now apply keeps_gets|intros alive].
    apply keeps_if; [|now apply keeps_ret].
    apply keeps_seq; [apply keeps_sp_iteration|intros _; exact IH].
Qed.

(** Every call of a method and every run of the thread keeps the shape
    of the newest sample. *)
Lemma perform_channels_ok (str_float : Py.rendering) (n : Z) (c : call)
  (s : state) :
  channels_ok n s -> channels_ok n (perform str_float c s).
Proof.
  intros Hs. destruct c; cbn [perform].
  - now apply keeps_set_flag.
  - now apply keeps_stop_recording.
  - now apply keeps_start_recording_to_buffer.
  - now apply keeps_set_flag.
  - exact Hs.
  - exact Hs.
  - now apply keeps_log.
  - now apply keeps_get_timestamp.
  - now apply keeps_close.
  - now apply keeps_sampleprocesser.
Qed.

Lemma session_after_channels_ok (str_float : Py.rendering) (n : Z)
  (calls : list call) (s : state) :
  channels_ok n s -> channels_ok n (session_after str_float calls s).
Proof.
  revert s. induction calls as [|c calls IH]; intros s Hs; [exact Hs|].
  apply IH. now apply perform_channels_ok.
Qed.

(** The calls of the foreground caller leave the newest sample alone. *)
Lemma perform_foreground (P : sample_value -> Z -> Prop)
  (str_float : Py.rendering) (c : call) (s : state) :
  is_foreground c = true ->
  about_sample P s -> about_sample P (perform str_float c s).
Proof.
  intros Hc Hs. destruct c; cbn [perform]; try discriminate Hc.
  - now apply keeps_set_flag.
  - now apply keeps_stop_recording.
  - now apply keeps_start_recording_to_buffer.
  - now apply keeps_set_flag.
  - exact Hs.
  - exact Hs.
  - now apply keeps_log.
  - now apply keeps_get_timestamp.
  - now apply keeps_close.
Qed.

Lemma session_after_foreground (P : sample_value -> Z -> Prop)
  (str_float : Py.rendering) (calls : list call) (s : state) :
  forallb is_foreground calls = true ->
  about_sample P s -> about_sample P (session_after str_float calls s).
Proof.
  revert s. induction calls as [|c calls IH]; intros s Hcalls Hs;
    [exact Hs|].
  cbn [forallb] in Hcalls. apply andb_true_iff in Hcalls as [Hc Hcalls].
  apply IH; [exact Hcalls|]. now apply perform_foreground.
Qed.

(** C10. On a session that [__init__] opened with [n_channels] channels,
    [sample()] returns a vector of exactly [n_channels] items after any
    calls of the methods and any runs of the sample processing thread,
    on whatever the driver answers; as long as only the foreground
    caller has acted, that vector is the array of [n_channels] zeros
    that [__init__] made. *)
Theorem sample_has_n_channels (str_float : Py.rendering)
  (devname : string) (n_channels samplerate : Z) (logfile : string)
  (overwrite : bool) (w w' : world) (o : BioPac) (calls : list call) :
  __init__ devname n_channels samplerate logfile overwrite w = (w', Ok o) ->
  let s := session_after str_float calls {| self := o; env := w' |} in
  (1 <= n_channels <= 16)%Z /\
  length (numpy.zeros n_channels) = Z.to_nat n_channels /\
  (forallb is_foreground calls = true ->
   sample s = (s, Ok (ndarray (numpy.zeros n_channels)))) /\
  exists v,
    sample s = (s, Ok v) /\
    length (items v) = Z.to_nat n_channels /\
    _n_channels (self s) = n_channels.
Proof.
  intros Hinit s.
  destruct (init_Ok _ _ _ _ _ _ _ _ Hinit) as (Hn & Hch & Hzeros & _).
  split; [exact Hn|]. split; [apply length_zeros|]. split.
  - intros Hcalls. unfold sample, gets. f_equal. f_equal.
    apply (session_after_foreground
             (fun v _ => v = ndarray (numpy.zeros n_channels))
             str_float calls _ Hcalls).
    exact Hzeros.
  - assert (Hs : channels_ok n_channels s).
    { apply session_after_channels_ok. unfold channels_ok, about_sample.
      cbn. rewrite Hzeros. split; [exact Hch | apply length_zeros]. }
    destruct Hs as [Hs1 Hs2].
    exists (_newestsample (self s)). now repeat split.
Qed.

Lemma sample_has_n_channels_witness :
  exists w' o v s,
    __init__ "MP150" 3 200 "default" true with_old_log = (w', Ok o) /\
    s = session_after demo_str_float
          [StartRecording; ThreadRuns three_readings; Close]
          {| self := o; env := w' |} /\
    sample s = (s, Ok v) /\
    length (items v) = 3%nat.
Proof.
  destruct (__init__ "MP150" 3 200 "default" true with_old_log)
    as [w' [o|e]] eqn:Hinit.
  - destruct (sample_has_n_channels demo_str_float "MP150" 3 200 "default"
                true with_old_log w' o
                [StartRecording; ThreadRuns three_readings; Close] Hinit)
      as (_ & _ & _ & v & Hsample & Hlen & _).
    exists w', o, v. eexists. split; [reflexivity|].
    split; [reflexivity|]. split; [exact Hsample | exact Hlen].
  - vm_compute in Hinit. discriminate Hinit.
Defined.

(** ** The novelty test on a fresh session *)

(** Against the array of zeros of a session with two channels or more,
    the novelty test raises: the comparison gives an array of as many
    booleans, which has no truth value. *)
Lemma sample_ne_zeros_raises (n : Z) (values : list float) :
  (2 <= n)%Z ->
  sample_ne (c_double_array n values) (ndarray (numpy.zeros n)) =
    Raise ValueError.
Proof.
  intros Hn. cbn [sample_ne].
  assert (Hlen : length (numpy.ne (c_double_array n values) (numpy.zeros n))
                 = Z.to_nat n).
  { unfold numpy.ne.
    rewrite length_zip_with, length_c_double_array, length_zeros. lia. }
  destruct (numpy.ne _ _) as [|b1 [|b2 bs]]; cbn in Hlen; try lia.
  reflexivity.
Qed.

(** With one channel the test does not raise: the reading is compared
    with 0.0. *)
Lemma sample_ne_zeros_one_channel (x : float) (values : list float) :
  sample_ne (c_double_array 1 (x :: values)) (ndarray (numpy.zeros 1)) =
    Ok (Py.float_ne x 0%float).
Proof. reflexivity. Qed.

(** On a session whose newest sample is still the array of zeros, with
    two channels or more, the first turn of the thread's loop raises
    [ValueError] at the novelty test: the attributes and the files are as
    they were. *)
Lemma sp_iteration_fresh_raises (str_float : Py.rendering) (f : fetch)
  (s : state) :
  fetch_result f = Returned 1 ->
  _newestsample (self s) = ndarray (numpy.zeros (_n_channels (self s))) ->
  (2 <= _n_channels (self s))%Z ->
  exists w',
    sp_iteration str_float f s =
      ({| self := self s; env := w' |}, Raise ValueError) /\
    fs w' = fs (env s).
Proof.
  destruct s as [o w]. cbn [self env]. intros Hf Hzeros Hn.
  eexists. split.
  - unfold sp_iteration, sp_novel, sp_fetch, answer. run.
    rewrite Hf. cbn [check_returncode Z.eqb Pos.eqb String.eqb Ascii.eqb
                     Bool.eqb negb]. run.
    rewrite Hzeros, sample_ne_zeros_raises by exact Hn. reflexivity.
  - reflexivity.
Qed.

Lemma sampleprocesser_fresh_raises (str_float : Py.rendering)
  (f : fetch) (fetches : list fetch) (s : state) :
  _connected (self s) = true ->
  fetch_result f = Returned 1 ->
  _newestsample (self s) = ndarray (numpy.zeros (_n_channels (self s))) ->
  (2 <= _n_channels (self s))%Z ->
  exists w',
    _sampleprocesser str_float (f :: fetches) s =
      ({| self := self s; env := w' |}, Raise ValueError) /\
    fs w' = fs (env s).
Proof.
  intros Halive Hf Hzeros Hn.
  destruct (sp_iteration_fresh_raises str_float f s Hf Hzeros Hn)
    as (w' & Hrun & Hfs).
  exists w'. split; [|exact Hfs].
  cbn [_sampleprocesser]. erewrite bind_Ok by reflexivity. cbv beta.
  rewrite Halive. now erewrite bind_Raise by exact Hrun.
Qed.

(** C1, at the inputs where the code departs from it. On a session just
    opened with two channels or more and switched to recording, the first
    answer of the driver ends the sample processing thread: the novelty
    test against the initial array of zeros raises [ValueError].  The log
    file keeps its header and gets no data row, however many distinct
    samples the driver reports. *)
Theorem fresh_session_logs_no_row (str_float : Py.rendering)
  (devname : string) (n_channels samplerate : Z) (logfile : string)
  (overwrite : bool) (w w' : world) (o : BioPac) (f : fetch)
  (fetches : list fetch) :
  __init__ devname n_channels samplerate logfile overwrite w = (w', Ok o) ->
  (2 <= n_channels)%Z ->
  fetch_result f = Returned 1 ->
  exists s1 s2,
    start_recording {| self := o; env := w' |} = (s1, Ok tt) /\
    _recording (self s1) = true /\
    _sampleprocesser str_float (f :: fetches) s1 = (s2, Raise ValueError) /\
    log_content s2 = Some (Py.join TAB (header n_channels)) /\
    sample s2 = (s2, Ok (ndarray (numpy.zeros n_channels))).
Proof.
  intros Hinit Hn Hf.
  destruct (init_Ok _ _ _ _ _ _ _ _ Hinit)
    as (_ & Hch & Hzeros & _ & _ & _ & Halive & _ & _ & Hname & Hlog & _).
  eexists. 
  destruct (sampleprocesser_fresh_raises str_float f fetches
              (fst (start_recording {| self := o; env := w' |})))
    as (w2 & Hrun & Hfs); try (cbn; congruence).
  eexists. split; [reflexivity|]. split; [reflexivity|].
  split; [exact Hrun|]. split.
  - unfold log_content. cbn [self env]. rewrite Hfs. cbn.
    now rewrite Hname.
  - unfold sample, gets. cbn. now rewrite Hzeros.
Qed.

Lemma fresh_session_logs_no_row_witness :
  exists w' o s1 s2,
    __init__ "MP150" 3 200 "default" true with_old_log = (w', Ok o) /\
    start_recording {| self := o; env := w' |} = (s1, Ok tt) /\
    _sampleprocesser demo_str_float three_readings s1 =
      (s2, Raise ValueError) /\
    log_content s2 = Some (Py.join TAB (header 3)).
Proof.
  destruct (__init__ "MP150" 3 200 "default" true with_old_log)
    as [w' [o|e]] eqn:Hinit.
  - destruct (fresh_session_logs_no_row demo_str_float "MP150" 3 200
                "default" true with_old_log w' o
                (reading [1%float; 2%float; 3%float] 11%float)
                (tail three_readings) Hinit)
      as (s1 & s2 & Hstart & _ & Hrun & Hlog & _);
      [lia | reflexivity |].
    exists w', o, s1, s2. now repeat split.
  - vm_compute in Hinit. discriminate Hinit.
Defined.

(** With one channel the thread survives, but a first reading equal to
    0.0 is not novel against the initial array: it is neither logged nor
    buffered. *)
Lemma first_zero_reading_is_dropped (str_float : Py.rendering) :
  exists s,
    _sampleprocesser str_float [reading [0%float] 12%float] (demo 1 true) =
      (s, Ok Waiting) /\
    log_content s = Some (Py.join TAB (header 1)) /\
    sample s = (s, Ok (ndarray [0%float])).
Proof. eexists. split; [vm_compute; reflexivity|]. now split. Qed.

(** C2, at the inputs where the code departs from it. On a session just
    opened with two channels or more, after
    [start_recording_to_buffer(channel)] the first answer of the driver
    ends the thread with [ValueError] at the novelty test; after
    [stop_recording_to_buffer()], [get_buffer()] returns the empty
    sequence, not the readings of the channel. *)
Theorem fresh_session_buffers_nothing (str_float : Py.rendering)
  (devname : string) (n_channels samplerate : Z) (logfile : string)
  (overwrite : bool) (w w' : world) (o : BioPac) (channel : Z) (f : fetch)
  (fetches : list fetch) :
  __init__ devname n_channels samplerate logfile overwrite w = (w', Ok o) ->
  (2 <= n_channels)%Z ->
  fetch_result f = Returned 1 ->
  exists s1 s2 s3,
    start_recording_to_buffer channel {| self := o; env := w' |} =
      (s1, Ok tt) /\
    _sampleprocesser str_float (f :: fetches) s1 = (s2, Raise ValueError) /\
    stop_recording_to_buffer s2 = (s3, Ok tt) /\
    get_buffer s3 = (s3, Ok []).
Proof.
  intros Hinit Hn Hf.
  destruct (init_Ok _ _ _ _ _ _ _ _ Hinit)
    as (_ & Hch & Hzeros & _ & _ & _ & Halive & _).
  eexists.
  destruct (sampleprocesser_fresh_raises str_float f fetches
              (fst (start_recording_to_buffer channel
                      {| self := o; env := w' |})))
    as (w2 & Hrun & _); try (cbn; congruence).
  do 2 eexists. split; [reflexivity|]. split; [exact Hrun|].
  split; reflexivity.
Qed.

Lemma fresh_session_buffers_nothing_witness :
  exists w' o s1 s2 s3,
    __init__ "MP150" 3 200 "default" true with_old_log = (w', Ok o) /\
    start_recording_to_buffer 0 {| self := o; env := w' |} = (s1, Ok tt) /\
    _sampleprocesser demo_str_float three_readings s1 =
      (s2, Raise ValueError) /\
    stop_recording_to_buffer s2 = (s3, Ok tt) /\
    get_buffer s3 = (s3, Ok []).
Proof.
  destruct (__init__ "MP150" 3 200 "default" true with_old_log)
    as [w' [o|e]] eqn:Hinit.
  - destruct (fresh_session_buffers_nothing demo_str_float "MP150" 3 200
                "default" true with_old_log w' o 0
                (reading [1%float; 2%float; 3%float] 11%float)
                (tail three_readings) Hinit)
      as (s1 & s2 & s3 & Hstart & Hrun & Hstop & Hget);
      [lia | reflexivity |].
    exists w', o, s1, s2, s3. now repeat split.
  - vm_compute in Hinit. discriminate Hinit.
Defined.

(** ** The loop once the newest sample is a tuple *)

Lemma same_settings_refl (s : state) : same_settings s s.
Proof. now repeat split. Qed.

Lemma same_settings_trans (s1 s2 s3 : state) :
  same_settings s1 s2 -> same_settings s2 s3 -> same_settings s1 s3.
Proof.
  unfold same_settings. intros H12 H23.
  destruct H12 as (?&?&?&?&?&?&?&?&?), H23 as (?&?&?&?&?&?&?&?&?).
  repeat split; congruence.
Qed.

(** A valid index, counted from either end, finds its item. *)
Lemma getitem_channel (data : list float) (ch : Z) :
  (- Z.of_nat (length data) <= ch < Z.of_nat (length data))%Z ->
  Py.getitem data ch = Ok (channel ch data).
Proof.
  intros Hch. unfold channel, Py.getitem.
  destruct (Z.ltb_spec ch 0);
    (destruct (Z.leb_spec 0 (ch + Z.of_nat (length data))),
             (Z.ltb_spec (ch + Z.of_nat (length data))
                         (Z.of_nat (length data)));
     destruct (Z.leb_spec 0 ch), (Z.ltb_spec ch (Z.of_nat (length data)));
     try lia; cbn [andb]).
  - destruct (lookup_lt_is_Some_2 data
                (Z.to_nat (ch + Z.of_nat (length data)))) as [x Hx]; [lia|].
    now rewrite Hx.
  - destruct (lookup_lt_is_Some_2 data (Z.to_nat ch)) as [x Hx]; [lia|].
    now rewrite Hx.
Qed.

(** One turn of the loop on a successful answer: a sample equal to the
    newest one changes nothing; a sample that differs becomes the newest
    one, is written as one data row when [_recording] is set (the row
    being one that the log file can encode), and gives one item to the
    buffer when [_recordtobuff] is set. *)
Lemma sp_iteration_tuple (str_float : Py.rendering) (f : fetch)
  (s : state) (newest : list float) (content : string) :
  fetch_result f = Returned 1 ->
  _newestsample (self s) = tuple newest ->
  _loglock (self s) = false ->
  file_closed (_logfile (self s)) = false ->
  log_content s = Some content ->
  let td := stamped (_starting_time (self s)) (_n_channels (self s)) f in
  (_recordtobuff (self s) = true ->
   Py.getitem (snd td) (_buffch (self s)) =
     Ok (channel (_buffch (self s)) (snd td))) ->
  (_recording (self s) = true ->
   Py.tuple_ne (snd td) newest = true ->
   Py.encodable (encoding (env s))
     (data_row str_float (fst td) (snd td)) = true) ->
  exists s',
    sp_iteration str_float f s = (s', Ok tt) /\
    same_settings s s' /\
    if Py.tuple_ne (snd td) newest then
      _newestsample (self s') = tuple (snd td) /\
      log_content s' =
        Some (content +:+
              if _recording (self s)
              then data_row str_float (fst td) (snd td) else EmptyString) /\
      _buffer (self s') =
        _buffer (self s) ++
        if _recordtobuff (self s)
        then [channel (_buffch (self s)) (snd td)] else []
    else
      _newestsample (self s') = tuple newest /\
      log_content s' = Some content /\
      _buffer (self s') = _buffer (self s).
Proof.
  intros Hf Hnewest Hfree Hopen Hcontent td Hitem Hrow.
  revert Hitem Hrow. subst td.
  destruct s as [o w]. unfold log_content in *. cbn [self env] in *.
  set (td := stamped (_starting_time o) (_n_channels o) f).
  intros Hitem Hrow.
  unfold sp_iteration, sp_novel, sp_fetch, answer. run.
  rewrite Hf. cbn [check_returncode Z.eqb Pos.eqb String.eqb Ascii.eqb
                   Bool.eqb negb]. run.
  rewrite Hnewest. cbn [sample_ne]. fold td.
  change (c_double_array (_n_channels o) (fetch_values f)) with (snd td).
  destruct (Py.tuple_ne (snd td) newest).
  2: { eexists. split; [reflexivity|]. cbn. now repeat split. }
  unfold sp_record, sp_write_row, sp_to_buffer. run.
  change (Py.int_of_float ((fetch_clock f - _starting_time o) * 1000))
    with (fst td).
  destruct (_recording o) eqn:Hrec, (_recordtobuff o) eqn:Hrtb; run;
    rewrite ?Hfree; run; rewrite ?Hopen; run;
    rewrite ?(Hrow eq_refl eq_refl); run;
    cbn [items]; rewrite ?(Hitem eq_refl); run;
    (eexists; split; [reflexivity|]); cbn;
    rewrite ?lookup_alter_eq, ?Hcontent, ?app_nil_r; cbn;
    repeat split; try easy.
  all: now rewrite append_empty_r.
Qed.

(** The thread on successful answers, from a session whose newest sample
    is a tuple: it works through all of them and waits for more.  The
    samples that differ from their predecessor, and only they, each give
    one data row to the log while [_recording] is set and one item to the
    buffer while [_recordtobuff] is set, in the order of arrival; the
    last of them is the newest sample. *)
Lemma sampleprocesser_tuple (str_float : Py.rendering)
  (fetches : list fetch) :
  forall (s : state) (newest : list float) (content : string),
  Forall (fun f => fetch_result f = Returned 1) fetches ->
  _connected (self s) = true ->
  _newestsample (self s) = tuple newest ->
  _loglock (self s) = false ->
  file_closed (_logfile (self s)) = false ->
  log_content s = Some content ->
  (_recordtobuff (self s) = true ->
   (- _n_channels (self s) <= _buffch (self s) < _n_channels (self s))%Z) ->
  let kept :=
    novel newest
      (map (stamped (_starting_time (self s)) (_n_channels (self s)))
           fetches) in
  (_recording (self s) = true ->
   Forall (fun td =>
     Py.encodable (encoding (env s))
       (data_row str_float (fst td) (snd td)) = true) kept) ->
  exists s',
    _sampleprocesser str_float fetches s = (s', Ok Waiting) /\
    same_settings s s' /\
    _newestsample (self s') = tuple (default newest (last (map snd kept))) /\
    log_content s' =
      Some (content +:+
            if _recording (self s) then data_rows str_float kept
            else EmptyString) /\
    _buffer (self s') =
      _buffer (self s) ++
      if _recordtobuff (self s)
      then map (fun td => channel (_buffch (self s)) (snd td)) kept
      else [].
Proof.
  induction fetches as [|f fetches IH];
    intros s newest content Hok Halive Hnewest Hfree Hopen Hcontent Hch kept
      Hrows.
  - exists s. subst kept. cbn [_sampleprocesser map novel data_rows last].
    split; [run; now rewrite Halive|].
    split; [apply same_settings_refl|].
    split; [exact Hnewest|].
    split; [|now destruct (_recordtobuff (self s)); rewrite app_nil_r].
    now destruct (_recording (self s)); rewrite append_empty_r.
  - apply Forall_cons in Hok as [Hf Hok].
    set (td := stamped (_starting_time (self s)) (_n_channels (self s)) f).
    assert (Hitem : _recordtobuff (self s) = true ->
              Py.getitem (snd td) (_buffch (self s)) =
                Ok (channel (_buffch (self s)) (snd td))).
    { intros Hrtb. apply getitem_channel. cbn [td stamped snd].
      rewrite length_c_double_array. specialize (Hch Hrtb). lia. }
    subst kept. cbn [map novel] in Hrows |- *. fold td in Hrows |- *.
    destruct (sp_iteration_tuple str_float f s newest content
                Hf Hnewest Hfree Hopen Hcontent Hitem)
      as (s1 & Hrun & Hsame & Hstep).
    { intros Hrec Hne. specialize (Hrows Hrec). fold td in Hne.
      rewrite Hne in Hrows.
      now apply Forall_cons in Hrows as [Hrow _]. }
    fold td in Hstep.
    pose proof Hsame as (Hn & Hstart & Hbuffch & Hfile & Hlock & Hrec &
                         Hrtb & Hconn & Henc).
    assert (Hch1 : _recordtobuff (self s1) = true ->
      (- _n_channels (self s1) <= _buffch (self s1)
       < _n_channels (self s1))%Z).
    { rewrite Hrtb, Hn, Hbuffch. exact Hch. }
    cbn [_sampleprocesser]. erewrite bind_Ok by reflexivity. cbv beta.
    rewrite Halive. erewrite bind_Ok by exact Hrun.
    destruct (Py.tuple_ne (snd td) newest).
    + destruct Hstep as (Hnewest1 & Hcontent1 & Hbuffer1).
      destruct (IH s1 (snd td) _ Hok ltac:(congruence) Hnewest1
                  ltac:(congruence) ltac:(congruence) Hcontent1 Hch1)
        as (s' & Hrun' & Hsame' & Hnewest' & Hcontent' & Hbuffer').
      { rewrite Hrec, Henc, Hstart, Hn. intros Hrec0.
        specialize (Hrows Hrec0). now apply Forall_cons in Hrows as [_ ?]. }
      rewrite Hstart, Hn, Hrec, Hrtb, Hbuffch in *.
      exists s'. split; [exact Hrun'|].
      split; [eapply same_settings_trans; eassumption|].
      split; [|split].
      * rewrite Hnewest'. cbn [map snd]. rewrite last_cons.
        now destruct (last _).
      * rewrite Hcontent'. cbn [data_rows fst snd].
        destruct (_recording (self s));
          now rewrite ?append_assoc, ?append_empty_r.
      * rewrite Hbuffer', Hbuffer1.
        destruct (_recordtobuff (self s)); cbn [map];
          now rewrite <- ?app_assoc, ?app_nil_r.
    + destruct Hstep as (Hnewest1 & Hcontent1 & Hbuffer1).
      destruct (IH s1 newest _ Hok ltac:(congruence) Hnewest1
                  ltac:(congruence) ltac:(congruence) Hcontent1 Hch1)
        as (s' & Hrun' & Hsame' & Hnewest' & Hcontent' & Hbuffer').
      { rewrite Hrec, Henc, Hstart, Hn. exact Hrows. }
      rewrite Hstart, Hn, Hrec, Hrtb, Hbuffch in *.
      exists s'. split; [exact Hrun'|].
      split; [eapply same_settings_trans; eassumption|].
      split; [exact Hnewest'|]. split; [exact Hcontent'|].
      now rewrite Hbuffer', Hbuffer1.
Qed.

(** The same value any number of times in a row is novel once, when it
    differs from the newest sample and equals itself (it holds no NaN). *)
Lemma novel_of_repeats (newest data : list float) (t : Z)
  (samples : list (Z * list float)) :
  Forall (fun td => snd td = data) samples ->
  Py.tuple_ne data newest = true ->
  Py.tuple_eq data data = true ->
  novel newest ((t, data) :: samples) = [(t, data)].
Proof.
  intros Hsame Hne Hrefl. cbn [novel snd]. rewrite Hne. f_equal.
  induction Hsame as [|td samples Htd _ IH]; [reflexivity|].
  cbn [novel]. unfold Py.tuple_ne. now rewrite Htd, Hrefl.
Qed.

(** The novel samples are some of the samples, in their order. *)
Lemma novel_sublist (newest : list float) (samples : list (Z * list float)) :
  sublist (novel newest samples) samples.
Proof.
  revert newest. induction samples as [|td samples IH]; intros newest.
  - constructor.
  - cbn [novel]. destruct (Py.tuple_ne _ _).
    + apply sublist_skip, IH.
    + apply sublist_cons, IH.
Qed.

(** Leaving items out of a sorted list leaves it sorted. *)
Lemma sublist_strongly_sorted {A : Type} (R : A -> A -> Prop)
  (l1 l2 : list A) :
  sublist l1 l2 -> StronglySorted R l2 -> StronglySorted R l1.
Proof.
  induction 1 as [|x l1 l2 Hsub IH|x l1 l2 Hsub IH]; intros Hsorted.
  - constructor.
  - apply StronglySorted_cons in Hsorted as [Hx Hsorted].
    apply StronglySorted_cons. split; [|now apply IH].
    apply Forall_forall. intros y Hy.
    rewrite Forall_forall in Hx. apply Hx.
    eapply elem_of_sublist; eassumption.
  - apply StronglySorted_cons in Hsorted as [_ Hsorted]. now apply IH.
Qed.

Lemma sublist_map {A B : Type} (f : A -> B) (l1 l2 : list A) :
  sublist l1 l2 -> sublist (map f l1) (map f l2).
Proof. induction 1; cbn [map]; now constructor. Qed.

(** The novel samples keep the order of the samples: where the
    timestamps of the samples do not decrease, neither do those of the
    novel ones. *)
Lemma novel_timestamps_sorted (newest : list float)
  (samples : list (Z * list float)) :
  StronglySorted Z.le (map fst samples) ->
  StronglySorted Z.le (map fst (novel newest samples)).
Proof.
  apply sublist_strongly_sorted, sublist_map, novel_sublist.
Qed.

Lemma novel_all_differ (newest : list float)
  (samples : list (Z * list float)) :
  all_differ newest samples = true -> novel newest samples = samples.
Proof.
  revert newest. induction samples as [|td samples IH]; intros newest;
    [reflexivity|].
  cbn [all_differ novel]. intros H. apply andb_true_iff in H as [-> H].
  now rewrite IH.
Qed.

(** X19. What C2 describes does hold once the newest sample is a tuple,
    that is, once the thread got past its first novel sample (which only
    a session with one channel does): for a valid channel index and
    samples that each differ from their predecessor, the buffer read
    after [stop_recording_to_buffer()] holds that channel of each
    sample, in order. *)
Lemma buffer_holds_distinct_samples (str_float : Py.rendering)
  (s : state) (newest : list float) (content : string) (ch : Z)
  (fetches : list fetch) :
  Forall (fun f => fetch_result f = Returned 1) fetches ->
  _connected (self s) = true ->
  _newestsample (self s) = tuple newest ->
  _loglock (self s) = false ->
  file_closed (_logfile (self s)) = false ->
  log_content s = Some content ->
  (- _n_channels (self s) <= ch < _n_channels (self s))%Z ->
  all_differ newest
    (map (stamped (_starting_time (self s)) (_n_channels (self s)))
         fetches) = true ->
  exists s1 s2 s3,
    start_recording_to_buffer ch s = (s1, Ok tt) /\
    _sampleprocesser str_float fetches s1 = (s2, Ok Waiting) /\
    stop_recording_to_buffer s2 = (s3, Ok tt) /\
    get_buffer s3 =
      (s3, Ok (map (fun f => channel ch
                      (c_double_array (_n_channels (self s))
                                      (fetch_values f)))
                   fetches)).
Proof.
  intros Hok Halive Hnewest Hfree Hopen Hcontent Hch Hdiffer.
  destruct (start_recording_to_buffer_spec ch s)
    as (s1 & Hstart & Hbuf1 & Hch1 & Hrtb1 & Hnewest1 & Hn1 & Hstart1 &
        Hfile1 & Hlock1 & Hconn1 & Hrec1 & Hfs1 & Henc1 & _).
  destruct (sampleprocesser_tuple str_float fetches s1 newest content Hok)
    as (s2 & Hrun & Hsame & _ & _ & Hbuf2); try congruence.
  { unfold log_content in *. now rewrite Hfile1, Hfs1. }
  { intros _. apply Forall_forall. intros td _.
    apply data_row_encodable. }
  exists s1, s2. eexists. split; [exact Hstart|]. split; [exact Hrun|].
  split; [reflexivity|].
  unfold get_buffer, gets. cbn. f_equal. f_equal.
  rewrite Hbuf2, Hbuf1, Hrtb1, Hch1, Hstart1, Hn1. cbn [app].
  rewrite novel_all_differ by exact Hdiffer.
  now rewrite map_map.
Qed.

(** * Further properties of the code *)

(** ** The arguments of [__init__] *)

Lemma upper_ascii_idempotent (c : ascii) :
  Py.upper_ascii (Py.upper_ascii c) = Py.upper_ascii c.
Proof.
  destruct c as [b0 b1 b2 b3 b4 b5 b6 b7].
  destruct b0, b1, b2, b3, b4, b5, b6, b7; reflexivity.
Qed.

Lemma upper_idempotent (s : string) : Py.upper (Py.upper s) = Py.upper s.
Proof.
  induction s as [|c s IH]; [reflexivity|].
  cbn [Py.upper]. now rewrite upper_ascii_idempotent, IH.
Qed.

(** X1. The device name is matched without regard to case: for a
    supported name, [__init__] does with [devname] exactly what it does
    with [devname.upper()]. *)
Theorem init_ignores_case (devname : string) (n_channels samplerate : Z)
  (logfile : string) (overwrite : bool) (w : world) :
  is_Some (_supported !! Py.upper devname) ->
  __init__ devname n_channels samplerate logfile overwrite w =
  __init__ (Py.upper devname) n_channels samplerate logfile overwrite w.
Proof.
  intros [devcode Hdev]. unfold __init__.
  rewrite upper_idempotent, Hdev. reflexivity.
Qed.

Lemma init_ignores_case_witness :
  __init__ "mp36r" 3 200 "demo" false refusing_rate =
  __init__ "MP36R" 3 200 "demo" false refusing_rate.
Proof.
  apply (init_ignores_case "mp36r" 3 200 "demo" false refusing_rate).
  now eexists.
Defined.

(** The search for the name of the log file reads the file system and
    changes nothing. *)
Lemma set_logfilename_world (logfile : string) (overwrite : bool)
  (w : world) :
  fst (set_logfilename logfile overwrite w) = w.
Proof.
  destruct overwrite.
  - now rewrite set_logfilename_plain by now left.
  - destruct (fs w !! (logfile +:+ "_BIOPAC_data.tsv")) eqn:Hfile.
    + now rewrite set_logfilename_taken by (eexists; exact Hfile).
    + now rewrite set_logfilename_plain by (right; exact Hfile).
Qed.

(** Walking through the calls of the driver and the opening of the log
    file in [__init__], one case for each way they can go. *)
Ltac init_steps :=
  repeat first
    [ progress run
    | rewrite header_encodable
    | match goal with
      | |- context [negb (String.eqb (check_returncode ?r) ?t)] =>
          destruct (negb (String.eqb (check_returncode r) t))
      | |- context [can_open ?w ?name] => destruct (can_open w name)
      end ].

(** X2. [__init__] checks its arguments in a fixed order, before any call
    of the driver: the device name, then the sample rate (zero cannot be
    divided by), then the number of channels, then the name of the log
    file.  The first check that fails decides the exception, and the
    world is left as it was; when all pass, the first thing [__init__]
    does to the world is to call [connectMPDev] with the code of the
    device. *)
Theorem init_checks_arguments_in_order (devname : string)
  (n_channels samplerate : Z) (logfile : string) (overwrite : bool)
  (w : world) :
  match argument_error devname n_channels samplerate logfile overwrite w
  with
  | Some e =>
      __init__ devname n_channels samplerate logfile overwrite w =
        (w, Raise e)
  | None =>
      exists devcode rest,
        _supported !! Py.upper devname = Some devcode /\
        trace (fst (__init__ devname n_channels samplerate logfile
                      overwrite w)) =
          trace w ++
          Dll (connectMPDev devcode 11 "auto")
              (mpdev w (connectMPDev devcode 11 "auto")) :: rest
  end.
Proof.
  unfold argument_error, __init__.
  destruct (_supported !! Py.upper devname) as [devcode|]; [|reflexivity].
  destruct (samplerate =? 0)%Z; [reflexivity|].
  destruct (negb _); [reflexivity|].
  destruct (bool_decide _ && negb overwrite) eqn:Hname.
  - apply andb_true_iff in Hname as [Htaken Hover].
    apply bool_decide_eq_true in Htaken. apply negb_true_iff in Hover.
    subst overwrite. erewrite bind_Raise; [reflexivity|].
    now apply set_logfilename_taken.
  - erewrite bind_Ok.
    2: { apply set_logfilename_plain.
         apply andb_false_iff in Hname as [Hfree|Hover].
         - right. apply bool_decide_eq_false in Hfree.
           destruct (fs w !! _) eqn:E; [|reflexivity].
           destruct Hfree. now eexists.
         - left. now destruct overwrite. }
    unfold open_w. init_steps;
      exists devcode; eexists; (split; [reflexivity|]);
      rewrite <- ?app_assoc; reflexivity.
Qed.

(** X3. A failed [__init__] never touches a file and never starts the
    thread: whatever the arguments and the driver, when it raises, the
    files and the clock are as before, and all it added to the trace are
    calls of the driver.  (This also holds where it is [open] that fails,
    after the four calls of the driver.) *)
Theorem failed_init_touches_no_file (devname : string)
  (n_channels samplerate : Z) (logfile : string) (overwrite : bool)
  (w : world) (e : error) :
  snd (__init__ devname n_channels samplerate logfile overwrite w) =
    Raise e ->
  let w' :=
    fst (__init__ devname n_channels samplerate logfile overwrite w) in
  fs w' = fs w /\
  clock w' = clock w /\
  exists new, trace w' = trace w ++ new /\ forallb is_dll new = true.
Proof.
  unfold __init__.
  destruct (_supported !! Py.upper devname) as [devcode|].
  2: { intros _. cbn. repeat split. exists []. now rewrite app_nil_r. }
  destruct (samplerate =? 0)%Z.
  { intros _. cbn. repeat split. exists []. now rewrite app_nil_r. }
  destruct (negb _).
  { intros _. cbn. repeat split. exists []. now rewrite app_nil_r. }
  pose proof (set_logfilename_world logfile overwrite w) as Hw.
  destruct (set_logfilename logfile overwrite w) as [w1 [name|e1]] eqn:Hname;
    cbn in Hw; subst w1.
  2: { erewrite bind_Raise by exact Hname. intros _. cbn.
       repeat split. exists []. now rewrite app_nil_r. }
  erewrite bind_Ok by exact Hname. unfold open_w. init_steps;
    intros He; try discriminate He; clear He; cbn; repeat split;
    rewrite <- ?app_assoc; eexists; (split; [reflexivity|reflexivity]).
Qed.

Lemma failed_init_touches_no_file_witness :
  fs (fst (__init__ "MP150" 3 200 "demo" false refusing_rate)) = ∅.
Proof.
  apply (failed_init_touches_no_file "MP150" 3 200 "demo" false
           refusing_rate (FailedToSetSamplerate (Returned 0))).
  reflexivity.
Defined.

(** X4. When the arguments pass the checks, the driver answers 1 to the
    four calls of the open sequence and the log file can be opened for
    writing, [__init__] returns an object: the four calls were made in
    order (the channel mask has 16 entries), then the log file was
    opened, the header written and the thread started.  The log file
    holds the header and nothing else, the other files are as they were,
    the clock reading after the connect is the origin of the timestamps,
    and nothing is being recorded.  When the log file cannot be opened,
    [__init__] raises the error of [open] after the same four calls, with
    the device left connected.  (The sample rate is one that [float]
    converts: an integer of 2^1024 or more overflows there, which is not
    followed here.) *)
Theorem init_succeeds (devname : string) (n_channels samplerate : Z)
  (logfile : string) (overwrite : bool) (w : world) (devcode : Z) :
  _supported !! Py.upper devname = Some devcode ->
  samplerate <> 0%Z ->
  (Z.abs samplerate < 2 ^ 1023)%Z ->
  (1 <= n_channels <= 16)%Z ->
  overwrite = true \/ fs w !! (logfile +:+ "_BIOPAC_data.tsv") = None ->
  Forall (fun step => mpdev w (fst step) = Returned 1)
    (open_sequence devcode (1000 / inject_Z samplerate)%Q n_channels) ->
  let name := logfile +:+ "_BIOPAC_data.tsv" in
  if can_open w name then
  exists w' o,
    __init__ devname n_channels samplerate logfile overwrite w =
      (w', Ok o) /\
    trace w' =
      trace w ++
      map (fun step => Dll (fst step) (Returned 1))
        (open_sequence devcode (1000 / inject_Z samplerate)%Q n_channels) ++
      [FileOpen name; FileWrite name (Py.join TAB (header n_channels));
       ThreadStart] /\
    length (replicate (Z.to_nat n_channels) 1%Z ++
            replicate (Z.to_nat (16 - n_channels)) 0%Z) = 16%nat /\
    fs w' !! name = Some (Py.join TAB (header n_channels)) /\
    (forall other, other <> name -> fs w' !! other = fs w !! other) /\
    _starting_time o = clock w /\
    _devname o = Py.upper devname /\ _devcode o = devcode /\
    _n_channels o = n_channels /\ _logfilename o = name /\
    _logfile o = {| file_name := name; file_closed := false |} /\
    _newestsample o = ndarray (numpy.zeros n_channels) /\
    _buffer o = [] /\ _loglock o = false /\
    _recording o = false /\ _recordtobuff o = false /\
    _connected o = true
  else
  exists w',
    __init__ devname n_channels samplerate logfile overwrite w =
      (w', Raise OSError) /\
    trace w' =
      trace w ++
      map (fun step => Dll (fst step) (Returned 1))
        (open_sequence devcode (1000 / inject_Z samplerate)%Q n_channels) /\
    fs w' = fs w /\
    device_connected (trace w') = true.
Proof.
  intros Hdev Hrate _ Hn Hname Hdll name.
  unfold open_sequence in Hdll.
  repeat match goal with
         | H : Forall _ (_ :: _) |- _ => apply Forall_cons in H as [? H]
         end.
  cbn [fst] in *.
  assert (Hinit :
    __init__ devname n_channels samplerate logfile overwrite w =
    (logfile <- open_w name ;;
     file_write logfile (Py.join TAB (header n_channels)) ;;
     emit ThreadStart ;;
     ret {| _devname := Py.upper devname; _devcode := devcode;
            _samplerate := inject_Z samplerate;
            _sampletime := (1000 / inject_Z samplerate)%Q;
            _sampletimesec := (1000 / inject_Z samplerate / 1000)%Q;
            _n_channels := n_channels; _logfilename := name;
            _newestsample := ndarray (numpy.zeros n_channels);
            _buffer := []; _buffch := 0%Z; _starting_time := clock w;
            _logfile := logfile; _loglock := false;
            _recording := false; _recordtobuff := false;
            _connected := true |})
      {| mpdev := mpdev w; clock := clock w; fs := fs w;
         can_open := can_open w; encoding := encoding w;
         trace :=
           trace w ++
           map (fun step => Dll (fst step) (Returned 1))
             (open_sequence devcode (1000 / inject_Z samplerate)%Q
                n_channels) |}).
  { unfold __init__. rewrite Hdev.
    destruct (Z.eqb_spec samplerate 0); [contradiction|].
    destruct (Z.ltb_spec 0 n_channels), (Z.leb_spec n_channels 16);
      try lia. cbn [andb negb].
    erewrite bind_Ok by (apply set_logfilename_plain; exact Hname).
    repeat (run;
            match goal with
            | H : mpdev w _ = Returned 1 |- _ => rewrite H; clear H
            end;
            cbn [check_returncode Z.eqb Pos.eqb String.eqb Ascii.eqb
                 Bool.eqb negb]).
    run. unfold open_sequence. cbn [map fst].
    rewrite <- !app_assoc. reflexivity. }
  rewrite Hinit. unfold open_w. run.
  destruct (can_open w name); run.
  - rewrite header_encodable. run. eexists _, _. split; [reflexivity|].
    cbn. rewrite <- !app_assoc. split; [reflexivity|].
    split; [rewrite length_app, !length_replicate; lia|].
    split; [now rewrite lookup_alter_eq, lookup_insert_eq|].
    split; [|now repeat split].
    intros other Hother.
    rewrite lookup_alter_ne, lookup_insert_ne
      by (intros E; apply Hother; symmetry; exact E).
    reflexivity.
  - eexists. split; [reflexivity|]. cbn [trace fs].
    split; [reflexivity|]. split; [reflexivity|].
    unfold open_sequence. cbn [map fst].
    apply device_connected_after_connect.
    repeat constructor; discriminate.
Qed.

Lemma init_succeeds_witness :
  exists w' o,
    __init__ "MP150" 3 200 "default" true with_old_log = (w', Ok o) /\
    fs w' !! "default_BIOPAC_data.tsv" = Some (Py.join TAB (header 3)) /\
    _starting_time o = 10%float.
Proof.
  destruct (init_succeeds "MP150" 3 200 "default" true with_old_log 101)
    as (w' & o & Hinit & _ & _ & Hlog & _ & Hstart & _).
  - reflexivity.
  - lia.
  - reflexivity.
  - lia.
  - now left.
  - repeat constructor.
  - exists w', o. now repeat split.
Defined.

(** ** The header of the log file *)

Lemma lookup_map {A B : Type} (f : A -> B) (l : list A) (i : nat) :
  map f l !! i = f <$> l !! i.
Proof.
  revert i. induction l as [|x l IH]; intros [|i]; try reflexivity.
  apply IH.
Qed.

(** X5. The header that [__init__] writes has one field per channel after
    [timestamp], named [channel_0] to [channel_(n-1)]; no field holds a
    tab, so the header row splits on tabs into exactly these fields. *)
Theorem header_fields (n_channels : Z) :
  length (header n_channels) = S (Z.to_nat n_channels) /\
  header n_channels !! 0%nat = Some "timestamp" /\
  (forall i : nat, (i < Z.to_nat n_channels)%nat ->
     header n_channels !! S i =
       Some ("channel_" +:+ Py.str_int (Z.of_nat i))) /\
  Py.split tab (Py.join TAB (header n_channels)) = header n_channels.
Proof.
  unfold header. split; [|split; [reflexivity|split]].
  - cbn [length]. now rewrite length_map, length_seqZ.
  - intros i Hi.
    change (map (fun i => "channel_" +:+ Py.str_int i)
                (seqZ 0 n_channels) !! i =
            Some ("channel_" +:+ Py.str_int (Z.of_nat i))).
    rewrite lookup_map, lookup_seqZ_lt by lia. reflexivity.
  - apply split_join; [discriminate|].
    constructor; [reflexivity|].
    apply Forall_map, Forall_forall. intros i _. cbn.
    rewrite contains_append, str_int_no_tab. reflexivity.
Qed.

(** ** Stopping the recording, and logging after the session is closed *)

(** X6. [stop_recording()] on an open session clears [_recording], then
    takes the log lock, flushes the log file and syncs it to disk, and
    releases the lock; the content of the log file and the other
    attributes are as before. *)
Theorem stop_recording_flushes_under_lock (s : state) :
  file_closed (_logfile (self s)) = false ->
  _loglock (self s) = false ->
  exists s',
    stop_recording s = (s', Ok tt) /\
    _recording (self s') = false /\
    _loglock (self s') = false /\
    _recordtobuff (self s') = _recordtobuff (self s) /\
    _connected (self s') = _connected (self s) /\
    _newestsample (self s') = _newestsample (self s) /\
    _buffer (self s') = _buffer (self s) /\
    log_content s' = log_content s /\
    trace (env s') =
      trace (env s) ++
      [FlagSet recording false; LockAcquire;
       FileFlush (file_name (_logfile (self s)));
       FileFsync (file_name (_logfile (self s))); LockRelease].
Proof.
  destruct s as [o w]. cbn [self env]. intros Hopen Hfree.
  eexists. split.
  { unfold stop_recording. run. rewrite Hfree. run. rewrite Hopen. run.
    reflexivity. }
  unfold log_content. cbn. rewrite <- !app_assoc. now repeat split.
Qed.

Lemma stop_recording_flushes_under_lock_witness :
  exists s',
    stop_recording (demo 3 true) = (s', Ok tt) /\
    _recording (self s') = false /\
    log_content s' = log_content (demo 3 true).
Proof.
  destruct (stop_recording_flushes_under_lock (demo 3 true)
              eq_refl eq_refl)
    as (s' & Hrun & Hrec & _ & _ & _ & _ & _ & Hlog & _).
  exists s'. now repeat split.
Defined.

(** X7. [log(msg)] on a session whose log file is closed (after [close()])
    raises [ValueError] at the write, after it has taken the log lock and
    before it would release it: nothing is written and the lock stays
    held, so that a later [log] or [stop_recording] waits for it and
    never returns. *)
Theorem log_after_close_keeps_lock (msg : string) (s : state) :
  file_closed (_logfile (self s)) = true ->
  _loglock (self s) = false ->
  exists s',
    log msg s = (s', Raise ValueError) /\
    fs (env s') = fs (env s) /\
    trace (env s') = trace (env s) ++ [LockAcquire] /\
    _loglock (self s') = true /\
    (forall msg', log msg' s' = (s', Raise NeverReturns)) /\
    exists s'',
      stop_recording s' = (s'', Raise NeverReturns) /\
      fs (env s'') = fs (env s).
Proof.
  destruct s as [o w]. cbn [self env]. intros Hclosed Hfree.
  eexists. split.
  { unfold log. run. rewrite Hfree. run. rewrite Hclosed. reflexivity. }
  cbn [self env fs trace _loglock with_attributes].
  split; [reflexivity|]. split; [reflexivity|]. split; [reflexivity|].
  split.
  - intros msg'. now apply log_waits_for_lock.
  - eexists. split; reflexivity.
Qed.

Lemma log_after_close_keeps_lock_witness :
  exists s',
    log "late" (fst (close (demo 3 true))) = (s', Raise ValueError) /\
    _loglock (self s') = true.
Proof.
  destruct (log_after_close_keeps_lock "late" (fst (close (demo 3 true)))
              eq_refl eq_refl)
    as (s' & Hrun & _ & _ & Hheld & _).
  exists s'. now split.
Defined.

(** ** The thread: failures of the driver, and sinks that are off *)

(** X8. When [getMostRecentSample] does not answer 1, the thread raises:
    it ends there, with the exception that carries the driver's answer.
    The call is in the trace; the newest sample, the buffer, the flags
    and the files are as before, and the later answers of the driver are
    not read. *)
Theorem thread_ends_on_driver_failure (str_float : Py.rendering)
  (f : fetch) (fetches : list fetch) (s : state) :
  _connected (self s) = true ->
  fetch_result f <> Returned 1 ->
  exists w',
    _sampleprocesser str_float (f :: fetches) s =
      ({| self := self s; env := w' |},
       Raise (FailedToObtainSample (fetch_result f))) /\
    fs w' = fs (env s) /\
    trace w' =
      trace (env s) ++ [Dll getMostRecentSample (fetch_result f)].
Proof.
  destruct s as [o w]. cbn [self env]. intros Halive Hf.
  apply check_returncode_failure in Hf.
  eexists. split.
  - cbn [_sampleprocesser]. unfold sp_iteration, sp_novel, sp_fetch, answer.
    run. rewrite Halive. run. rewrite Hf. reflexivity.
  - split; reflexivity.
Qed.

Lemma thread_ends_on_driver_failure_witness :
  exists w',
    _sampleprocesser demo_str_float
      ({| fetch_result := Returned 0; fetch_values := [];
          fetch_clock := 11%float |} :: three_readings) (demo 3 true) =
      ({| self := demo_self 3 true; env := w' |},
       Raise (FailedToObtainSample (Returned 0))) /\
    fs w' = fs (demo_env 3).
Proof.
  destruct (thread_ends_on_driver_failure demo_str_float
              {| fetch_result := Returned 0; fetch_values := [];
                 fetch_clock := 11%float |} three_readings (demo 3 true))
    as (w' & Hrun & Hfs & _).
  - reflexivity.
  - discriminate.
  - exists w'. now split.
Defined.

(** One turn of the loop with [_recording] off leaves the files alone. *)
Lemma sp_iteration_not_recording (str_float : Py.rendering) (f : fetch)
  (s : state) :
  _recording (self s) = false ->
  _recording (self (fst (sp_iteration str_float f s))) = false /\
  fs (env (fst (sp_iteration str_float f s))) = fs (env s).
Proof.
  destruct s as [o w]. cbn [self env]. intros Hrec.
  unfold sp_iteration, sp_novel, sp_fetch, answer. run.
  destruct (negb (String.eqb _ _)); run; [now split|].
  destruct (sample_ne _ _) as [[|]|]; run; try (now split).
  unfold sp_record, sp_to_buffer. run. rewrite Hrec. run.
  destruct (_recordtobuff o); run; [|now split].
  cbn [items]. destruct (Py.getitem _ _); run; now split.
Qed.

(** X9. While [_recording] is off the thread writes nothing: whatever the
    driver answers (new samples, repeated samples, failures), after the
    thread has worked through the answers the files are as they were and
    [_recording] is still off. *)
Theorem thread_writes_nothing_unless_recording
  (str_float : Py.rendering) (fetches : list fetch) (s : state) :
  _recording (self s) = false ->
  let s' := fst (_sampleprocesser str_float fetches s) in
  fs (env s') = fs (env s) /\ _recording (self s') = false.
Proof.
  revert s. induction fetches as [|f fetches IH]; intros s Hrec.
  - cbn [_sampleprocesser]. run. split; [reflexivity | exact Hrec].
  - cbn [_sampleprocesser]. unfold bind, gets.
    destruct (_connected (self s)); [|split; [reflexivity | exact Hrec]].
    destruct (sp_iteration_not_recording str_float f s Hrec)
      as [Hrec1 Hfs1].
    destruct (sp_iteration str_float f s) as [s1 [[]|e]]; cbn in *.
    + destruct (IH s1 Hrec1) as [Hfs Hrec']. split; congruence.
    + now split.
Qed.

Lemma thread_writes_nothing_unless_recording_witness :
  fs (env (fst (_sampleprocesser demo_str_float
                  [reading [1.5%float] 11%float; reading [2%float] 12%float]
                  (demo 1 false)))) =
    fs (demo_env 1).
Proof.
  apply (thread_writes_nothing_unless_recording demo_str_float
           [reading [1.5%float] 11%float; reading [2%float] 12%float]
           (demo 1 false)).
  reflexivity.
Defined.

(** One turn of the loop with [_recordtobuff] off leaves the buffer
    alone. *)
Lemma sp_iteration_not_buffering (str_float : Py.rendering) (f : fetch)
  (s : state) :
  _recordtobuff (self s) = false ->
  _recordtobuff (self (fst (sp_iteration str_float f s))) = false /\
  _buffer (self (fst (sp_iteration str_float f s))) = _buffer (self s).
Proof.
  destruct s as [o w]. cbn [self env]. intros Hrtb.
  unfold sp_iteration, sp_novel, sp_fetch, answer. run.
  destruct (negb (String.eqb _ _)); run; [now split|].
  destruct (sample_ne _ _) as [[|]|]; run; try (now split).
  unfold sp_record, sp_write_row. run.
  destruct (_recording o); run.
  - destruct (_loglock o); run; [now split|].
    destruct (file_closed (_logfile o)); run; [now split|].
    destruct (Py.encodable _ _); run; [|now split].
    rewrite Hrtb. run. now split.
  - rewrite Hrtb. run. now split.
Qed.

(** X10. While [_recordtobuff] is off the thread leaves the buffer alone:
    whatever the driver answers, what [get_buffer()] returns after the
    thread has worked through the answers is what it returned before. *)
Theorem thread_keeps_buffer_unless_buffering
  (str_float : Py.rendering) (fetches : list fetch) (s : state) :
  _recordtobuff (self s) = false ->
  let s' := fst (_sampleprocesser str_float fetches s) in
  snd (get_buffer s') = snd (get_buffer s) /\
  _recordtobuff (self s') = false.
Proof.
  unfold get_buffer, gets. cbn [snd].
  revert s. induction fetches as [|f fetches IH]; intros s Hrtb.
  - cbn [_sampleprocesser]. run. now split.
  - cbn [_sampleprocesser]. unfold bind, gets.
    destruct (_connected (self s)); [|split; [reflexivity | exact Hrtb]].
    destruct (sp_iteration_not_buffering str_float f s Hrtb)
      as [Hrtb1 Hbuf1].
    destruct (sp_iteration str_float f s) as [s1 [[]|e]]; cbn in *.
    + destruct (IH s1 Hrtb1) as [Hbuf Hrtb']. split; congruence.
    + split; congruence.
Qed.

Lemma thread_keeps_buffer_unless_buffering_witness :
  snd (get_buffer
         (fst (_sampleprocesser demo_str_float
                 [reading [1.5%float] 11%float; reading [2%float] 12%float]
                 (demo 1 true)))) =
    Ok [].
Proof.
  apply (thread_keeps_buffer_unless_buffering demo_str_float
           [reading [1.5%float] 11%float; reading [2%float] 12%float]
           (demo 1 true)).
  reflexivity.
Defined.

(** ** The thread on a session whose newest sample is a tuple *)

(** X11. On a recording session whose newest sample is a tuple, the
    thread works through successful answers of the driver and waits for
    more; the log gets one data row for each sample that differs from its
    predecessor (the first from the newest sample), in the order of
    arrival, and nothing else; [sample()] then returns the last of these
    samples; the rows stand in the order of the answers, so that their
    timestamps do not decrease when the timestamps taken at the answers
    do not. *)
Theorem recording_logs_novel_samples (str_float : Py.rendering)
  (fetches : list fetch) (s : state) (newest : list float)
  (content : string) :
  Forall (fun f => fetch_result f = Returned 1) fetches ->
  _connected (self s) = true ->
  _newestsample (self s) = tuple newest ->
  _loglock (self s) = false ->
  file_closed (_logfile (self s)) = false ->
  log_content s = Some content ->
  _recording (self s) = true ->
  _recordtobuff (self s) = false ->
  let samples :=
    map (stamped (_starting_time (self s)) (_n_channels (self s)))
        fetches in
  let kept := novel newest samples in
  exists s',
    _sampleprocesser str_float fetches s = (s', Ok Waiting) /\
    log_content s' = Some (content +:+ data_rows str_float kept) /\
    sample s' = (s', Ok (tuple (default newest (last (map snd kept))))) /\
    _buffer (self s') = _buffer (self s) /\
    sublist kept samples /\
    (StronglySorted Z.le (map fst samples) ->
     StronglySorted Z.le (map fst kept)).
Proof.
  intros Hok Halive Hnewest Hfree Hopen Hcontent Hrec Hrtb samples kept.
  destruct (sampleprocesser_tuple str_float fetches s newest content
              Hok Halive Hnewest Hfree Hopen Hcontent)
    as (s' & Hrun & _ & Hnewest' & Hcontent' & Hbuffer').
  { rewrite Hrtb. discriminate. }
  { intros _. apply Forall_forall. intros td _.
    apply data_row_encodable. }
  rewrite Hrec in Hcontent'. rewrite Hrtb, app_nil_r in Hbuffer'.
  exists s'. split; [exact Hrun|]. split; [exact Hcontent'|].
  split; [unfold sample, gets; now rewrite Hnewest'|].
  split; [exact Hbuffer'|].
  split; [apply novel_sublist | apply novel_timestamps_sorted].
Qed.

Lemma recording_logs_novel_samples_witness :
  exists s',
    _sampleprocesser demo_str_float
      [reading [2.5%float] 11%float; reading [1.5%float] 12%float;
       reading [1.5%float] 13%float; reading [2%float] 14%float]
      (demo_tuple [2.5%float] true false 0) = (s', Ok Waiting) /\
    log_content s' =
      Some (Py.join TAB (header 1) +:+
            data_rows demo_str_float
              [(2000%Z, [1.5%float]); (4000%Z, [2%float])]).
Proof.
  destruct (recording_logs_novel_samples demo_str_float
              [reading [2.5%float] 11%float; reading [1.5%float] 12%float;
               reading [1.5%float] 13%float; reading [2%float] 14%float]
              (demo_tuple [2.5%float] true false 0) [2.5%float]
              (Py.join TAB (header 1)))
    as (s' & Hrun & Hlog & _); try reflexivity.
  - repeat constructor.
  - exists s'. split; [exact Hrun | exact Hlog].
Defined.

(** X12. The same sample any number of times in a row gives one data row:
    on a recording session whose newest sample is a tuple, when the first
    answer differs from the newest sample and the answers after it carry
    the same readings (with no NaN among them), the log gets the row of
    the first answer and nothing else. *)
Theorem repeated_sample_logged_once (str_float : Py.rendering)
  (f : fetch) (repeats : list fetch) (s : state) (newest : list float)
  (content : string) :
  fetch_result f = Returned 1 ->
  Forall (fun f' => fetch_result f' = Returned 1 /\
                    fetch_values f' = fetch_values f) repeats ->
  _connected (self s) = true ->
  _newestsample (self s) = tuple newest ->
  _loglock (self s) = false ->
  file_closed (_logfile (self s)) = false ->
  log_content s = Some content ->
  _recording (self s) = true ->
  _recordtobuff (self s) = false ->
  let td := stamped (_starting_time (self s)) (_n_channels (self s)) f in
  Py.tuple_ne (snd td) newest = true ->
  Py.tuple_eq (snd td) (snd td) = true ->
  exists s',
    _sampleprocesser str_float (f :: repeats) s = (s', Ok Waiting) /\
    log_content s' =
      Some (content +:+ data_row str_float (fst td) (snd td)) /\
    sample s' = (s', Ok (tuple (snd td))).
Proof.
  intros Hf Hrepeats Halive Hnewest Hfree Hopen Hcontent Hrec Hrtb td
    Hne Hrefl.
  destruct (sampleprocesser_tuple str_float (f :: repeats) s newest content)
    as (s' & Hrun & _ & Hnewest' & Hcontent' & _); try assumption.
  { constructor; [exact Hf|].
    eapply Forall_impl; [exact Hrepeats|]. now intros f' [Hf' _]. }
  { rewrite Hrtb. discriminate. }
  { intros _. apply Forall_forall. intros td' _.
    apply data_row_encodable. }
  rewrite Hrec in Hcontent'. cbn [map] in Hcontent', Hnewest'.
  fold td in Hcontent', Hnewest'.
  assert (Hkept :
    novel newest
      (td :: map (stamped (_starting_time (self s)) (_n_channels (self s)))
                 repeats) = [td]).
  { destruct td as [t data] eqn:Htd. apply novel_of_repeats; try assumption.
    apply Forall_map. eapply Forall_impl; [exact Hrepeats|].
    intros f' [_ Hvalues]. unfold stamped. cbn [snd].
    rewrite Hvalues.
    change (c_double_array (_n_channels (self s)) (fetch_values f))
      with (snd (stamped (_starting_time (self s))
                         (_n_channels (self s)) f)).
    fold td. now rewrite Htd. }
  rewrite Hkept in Hcontent', Hnewest'. cbn in Hcontent', Hnewest'.
  rewrite append_empty_r in Hcontent'.
  exists s'. split; [exact Hrun|]. split; [exact Hcontent'|].
  unfold sample, gets. now rewrite Hnewest'.
Qed.

Lemma repeated_sample_logged_once_witness :
  exists s',
    _sampleprocesser demo_str_float
      [reading [1.5%float] 11%float; reading [1.5%float] 12%float;
       reading [1.5%float] 13%float]
      (demo_tuple [2.5%float] true false 0) = (s', Ok Waiting) /\
    log_content s' =
      Some (Py.join TAB (header 1) +:+
            data_row demo_str_float 1000 [1.5%float]).
Proof.
  destruct (repeated_sample_logged_once demo_str_float
              (reading [1.5%float] 11%float)
              [reading [1.5%float] 12%float; reading [1.5%float] 13%float]
              (demo_tuple [2.5%float] true false 0) [2.5%float]
              (Py.join TAB (header 1)))
    as (s' & Hrun & Hlog & _); try reflexivity.
  - repeat constructor.
  - exists s'. split; [exact Hrun | exact Hlog].
Defined.

(** ** Timestamps *)

(** [get_timestamp()] changes nothing, and what it returns is the
    truncation of the product as the floats give it: 9 milliseconds after
    an origin of 0.0 the clock reads the float next to 0.009, which lies
    below 0.009, and the product by 1000 rounds to 9.000000000000002. *)
Lemma get_timestamp_truncates_the_float_product :
  let s :=
    {| self :=
         {| _devname := "MP150"; _devcode := 101%Z;
            _samplerate := 200%Q; _sampletime := (1000 / 200)%Q;
            _sampletimesec := (1000 / 200 / 1000)%Q; _n_channels := 3%Z;
            _logfilename := demo_name;
            _newestsample := ndarray (numpy.zeros 3);
            _buffer := []; _buffch := 0%Z;
            _starting_time := 0%float;
            _logfile := {| file_name := demo_name; file_closed := false |};
            _loglock := false;
            _recording := false; _recordtobuff := false;
            _connected := true |};
       env :=
         {| mpdev := mpdev (demo_env 3);
            clock := 0x1.26e978d4fdf3bp-7%float;
            fs := fs (demo_env 3); can_open := can_open (demo_env 3);
            encoding := encoding (demo_env 3); trace := [] |} |} in
  get_timestamp s = (s, Ok 9%Z) /\
  Py.int_of_float (-2.5) = (-2)%Z /\
  Py.int_of_float 2.5 = 2%Z.
Proof. now vm_compute. Qed.

(** ** Readings that are not numbers *)

(** A NaN equals nothing, not even itself. *)
Lemma nan_eqb (x y : float) :
  is_nan x = true -> PrimFloat.eqb x y = false.
Proof.
  unfold is_nan. rewrite !FloatAxioms.eqb_spec. intros Hx.
  apply negb_true_iff in Hx.
  destruct (Prim2SF x) as [sx|sx| |sx mx ex]; try reflexivity.
  - discriminate Hx.
  - destruct sx; discriminate Hx.
  - unfold SFeqb, SFcompare in Hx.
    rewrite Z.compare_refl in Hx.
    change (PosDef.Pos.compare_cont Eq mx mx) with (Pos.compare mx mx) in Hx.
    rewrite Pos.compare_refl in Hx. destruct sx; discriminate Hx.
Qed.

Lemma tuple_ne_nan (data t : list float) :
  Exists (fun x => is_nan x = true) data -> Py.tuple_ne data t = true.
Proof.
  unfold Py.tuple_ne. intros Hnan. apply negb_true_iff.
  revert t. induction Hnan as [x data Hx|x data _ IH]; intros [|y t];
    cbn [Py.tuple_eq]; try reflexivity.
  - now rewrite (nan_eqb x y Hx).
  - now rewrite IH, andb_false_r.
Qed.

Lemma novel_all_nan (newest : list float) (samples : list (Z * list float)) :
  Forall (fun td => Exists (fun x => is_nan x = true) (snd td)) samples ->
  novel newest samples = samples.
Proof.
  intros Hnan. revert newest.
  induction Hnan as [|td samples Htd _ IH]; intros newest; [reflexivity|].
  cbn [novel]. now rewrite tuple_ne_nan, IH.
Qed.

(** X14. A sample with a NaN among its readings is novel against every
    tuple, itself included, since NaN differs from NaN.  So on a
    recording session whose newest sample is a tuple, every answer of
    the driver that holds a NaN gets a data row, repeated or not. *)
Theorem nan_samples_are_all_logged (str_float : Py.rendering)
  (fetches : list fetch) (s : state) (newest : list float)
  (content : string) :
  Forall (fun f =>
    fetch_result f = Returned 1 /\
    Exists (fun x => is_nan x = true)
      (c_double_array (_n_channels (self s)) (fetch_values f))) fetches ->
  _connected (self s) = true ->
  _newestsample (self s) = tuple newest ->
  _loglock (self s) = false ->
  file_closed (_logfile (self s)) = false ->
  log_content s = Some content ->
  _recording (self s) = true ->
  _recordtobuff (self s) = false ->
  (forall data t,
     Exists (fun x => is_nan x = true) data ->
     sample_ne data (tuple t) = Ok true) /\
  exists s',
    _sampleprocesser str_float fetches s = (s', Ok Waiting) /\
    log_content s' =
      Some (content +:+
            data_rows str_float
              (map (stamped (_starting_time (self s))
                            (_n_channels (self s))) fetches)).
Proof.
  intros Hfetches Halive Hnewest Hfree Hopen Hcontent Hrec Hrtb.
  split.
  { intros data t Hnan. cbn [sample_ne]. now rewrite tuple_ne_nan. }
  destruct (sampleprocesser_tuple str_float fetches s newest content)
    as (s' & Hrun & _ & _ & Hcontent' & _); try assumption.
  { eapply Forall_impl; [exact Hfetches|]. now intros f [Hf _]. }
  { rewrite Hrtb. discriminate. }
  { intros _. apply Forall_forall. intros td _.
    apply data_row_encodable. }
  rewrite Hrec, novel_all_nan in Hcontent'.
  - exists s'. split; [exact Hrun | exact Hcontent'].
  - apply Forall_map. eapply Forall_impl; [exact Hfetches|].
    now intros f [_ Hnan].
Qed.

Lemma nan_samples_are_all_logged_witness :
  exists s',
    _sampleprocesser demo_str_float
      [reading [nan] 11%float; reading [nan] 12%float]
      (demo_tuple [2.5%float] true false 0) = (s', Ok Waiting) /\
    log_content s' =
      Some (Py.join TAB (header 1) +:+
            data_rows demo_str_float
              [(1000%Z, [nan]); (2000%Z, [nan])]).
Proof.
  destruct (nan_samples_are_all_logged demo_str_float
              [reading [nan] 11%float; reading [nan] 12%float]
              (demo_tuple [2.5%float] true false 0) [2.5%float]
              (Py.join TAB (header 1)))
    as (_ & s' & Hrun & Hlog); try reflexivity.
  - repeat constructor.
  - exists s'. split; [exact Hrun | exact Hlog].
Defined.

(** ** The channel index of the buffer *)

(** X15. A negative channel index counts from the last channel, as
    Python's indexing does: with [_buffch] between [-n] and [-1] on a
    newest sample of [n] items, adding to the buffer appends item
    [n + _buffch], and changes nothing else. *)
Theorem negative_channel_counts_from_end (s : state) (x : float) :
  let data := items (_newestsample (self s)) in
  let n := Z.of_nat (length data) in
  (- n <= _buffch (self s) < 0)%Z ->
  data !! Z.to_nat (n + _buffch (self s)) = Some x ->
  exists s',
    sp_to_buffer s = (s', Ok tt) /\
    _buffer (self s') = _buffer (self s) ++ [x] /\
    _newestsample (self s') = _newestsample (self s) /\
    env s' = env s.
Proof.
  intros data n Hch Hx. destruct s as [o w]. cbn [self env] in *.
  eexists. split.
  - unfold sp_to_buffer. run. unfold Py.getitem. fold data. fold n.
    destruct (Z.ltb_spec (_buffch o) 0); [|lia].
    destruct (Z.leb_spec 0 (_buffch o + n)); [|lia].
    destruct (Z.ltb_spec (_buffch o + n) n); [|lia].
    cbn [andb]. rewrite (Z.add_comm (_buffch o) n), Hx. run. reflexivity.
  - now cbn.
Qed.

Lemma negative_channel_counts_from_end_witness :
  exists s',
    sp_to_buffer (demo_tuple [1.5%float; 2%float] false true (-1)) =
      (s', Ok tt) /\
    _buffer (self s') = [2%float].
Proof.
  destruct (negative_channel_counts_from_end
              (demo_tuple [1.5%float; 2%float] false true (-1)) 2%float)
    as (s' & Hrun & Hbuf & _).
  - cbn. lia.
  - reflexivity.
  - exists s'. split; [exact Hrun | exact Hbuf].
Defined.

Lemma getitem_out_of_range (data : list float) (ch : Z) :
  ~ (- Z.of_nat (length data) <= ch < Z.of_nat (length data))%Z ->
  Py.getitem data ch = Raise IndexError.
Proof.
  intros Hch. unfold Py.getitem.
  destruct (Z.ltb_spec ch 0);
    [destruct (Z.leb_spec 0 (ch + Z.of_nat (length data))),
              (Z.ltb_spec (ch + Z.of_nat (length data))
                          (Z.of_nat (length data)))
    |destruct (Z.leb_spec 0 ch), (Z.ltb_spec ch (Z.of_nat (length data)))];
    try lia; reflexivity.
Qed.

(** X16. A channel index out of range is met by the thread, not by
    [start_recording_to_buffer]: at the first sample that differs from
    the newest one, the thread installs the sample, writes its row when
    [_recording] is set, and then raises [IndexError] where it would add
    to the buffer.  The buffer is as before, and the thread has ended. *)
Theorem thread_ends_on_channel_out_of_range (str_float : Py.rendering)
  (f : fetch) (fetches : list fetch) (s : state) (newest : list float)
  (content : string) :
  fetch_result f = Returned 1 ->
  _connected (self s) = true ->
  _newestsample (self s) = tuple newest ->
  _loglock (self s) = false ->
  file_closed (_logfile (self s)) = false ->
  log_content s = Some content ->
  _recordtobuff (self s) = true ->
  let td := stamped (_starting_time (self s)) (_n_channels (self s)) f in
  Py.tuple_ne (snd td) newest = true ->
  ~ (- Z.of_nat (length (snd td)) <= _buffch (self s)
     < Z.of_nat (length (snd td)))%Z ->
  exists s',
    _sampleprocesser str_float (f :: fetches) s = (s', Raise IndexError) /\
    _newestsample (self s') = tuple (snd td) /\
    _buffer (self s') = _buffer (self s) /\
    log_content s' =
      Some (content +:+
            if _recording (self s)
            then data_row str_float (fst td) (snd td) else EmptyString).
Proof.
  intros Hf Halive Hnewest Hfree Hopen Hcontent Hrtb td Hne Hch.
  apply getitem_out_of_range in Hch. revert Hne Hch. subst td.
  destruct s as [o w]. unfold log_content in *. cbn [self env] in *.
  set (td := stamped (_starting_time o) (_n_channels o) f).
  intros Hne Hch.
  cbn [_sampleprocesser].
  unfold sp_iteration, sp_novel, sp_fetch, answer. run.
  rewrite Halive. run.
  rewrite Hf. cbn [check_returncode Z.eqb Pos.eqb String.eqb Ascii.eqb
                   Bool.eqb negb]. run.
  rewrite Hnewest. cbn [sample_ne]. fold td.
  change (c_double_array (_n_channels o) (fetch_values f)) with (snd td).
  rewrite Hne. unfold sp_record, sp_write_row, sp_to_buffer. run.
  destruct (_recording o) eqn:Hrec; run;
    rewrite ?Hfree; run; rewrite ?Hopen; run;
    rewrite ?data_row_encodable; run;
    rewrite Hrtb; run;
    cbn [items]; rewrite Hch; run;
    (eexists; split; [reflexivity|]); cbn;
    rewrite ?lookup_alter_eq, ?Hcontent, ?append_empty_r; cbn;
    now repeat split.
Qed.

Lemma thread_ends_on_channel_out_of_range_witness :
  exists s',
    _sampleprocesser demo_str_float
      [reading [1.5%float] 11%float; reading [2%float] 12%float]
      (demo_tuple [2.5%float] false true 5) = (s', Raise IndexError) /\
    _buffer (self s') = [].
Proof.
  destruct (thread_ends_on_channel_out_of_range demo_str_float
              (reading [1.5%float] 11%float) [reading [2%float] 12%float]
              (demo_tuple [2.5%float] false true 5) [2.5%float]
              (Py.join TAB (header 1)))
    as (s' & Hrun & _ & Hbuf & _); try reflexivity.
  - intros [_ H]. vm_compute in H. discriminate H.
  - exists s'. split; [exact Hrun | exact Hbuf].
Defined.

Lemma buffer_holds_distinct_samples_witness :
  exists s1 s2 s3,
    start_recording_to_buffer (-1) (demo_tuple [2.5%float] false false 0) =
      (s1, Ok tt) /\
    _sampleprocesser demo_str_float
      [reading [1.5%float] 11%float; reading [2%float] 12%float] s1 =
      (s2, Ok Waiting) /\
    stop_recording_to_buffer s2 = (s3, Ok tt) /\
    get_buffer s3 = (s3, Ok [1.5%float; 2%float]).
Proof.
  destruct (buffer_holds_distinct_samples demo_str_float
              (demo_tuple [2.5%float] false false 0) [2.5%float]
              (Py.join TAB (header 1)) (-1)
              [reading [1.5%float] 11%float; reading [2%float] 12%float])
    as (s1 & s2 & s3 & Hstart & Hrun & Hstop & Hget); try reflexivity.
  - repeat constructor.
  - cbn. lia.
  - exists s1, s2, s3. now repeat split.
Defined.

(** ** Closing twice *)

(** X17. [close()] on a session that is already closed and not recording
    leaves the log file alone (closing a closed file is allowed), clears
    [_connected] again and calls [disconnectMPDev] again; it raises when
    the driver does not answer 1 to this second disconnect. *)
Theorem close_again_disconnects_again (s : state) :
  file_closed (_logfile (self s)) = true ->
  _recording (self s) = false ->
  let result := mpdev (env s) disconnectMPDev in
  exists s',
    close s =
      (s', if String.eqb (check_returncode result) "MPSUCCESS" then Ok tt
           else Raise (FailedToClose result)) /\
    trace (env s') =
      trace (env s) ++
      [FlagSet connected false; Dll disconnectMPDev result] /\
    fs (env s') = fs (env s) /\
    _logfile (self s') = _logfile (self s) /\
    _connected (self s') = false.
Proof.
  intros Hclosed Hrec result. subst result. destruct s as [o w].
  cbn [self env] in *. unfold close. run. rewrite Hrec. run.
  rewrite Hclosed. run.
  destruct (String.eqb _ _); cbn [negb]; run;
    (eexists; split; [reflexivity|]); cbn; rewrite <- ?app_assoc;
    now repeat split.
Qed.

Lemma close_again_disconnects_again_witness :
  exists s',
    close (fst (close (demo 3 true))) = (s', Ok tt) /\
    trace (env s') =
      trace (env (fst (close (demo 3 true)))) ++
      [FlagSet connected false; Dll disconnectMPDev (Returned 1)].
Proof.
  destruct (close_again_disconnects_again (fst (close (demo 3 true)))
              eq_refl eq_refl)
    as (s' & Hrun & Htrace & _).
  exists s'. split; [exact Hrun | exact Htrace].
Defined.

(** ** The first reading of a session with one channel *)

(** X18. On a session with one channel whose newest sample is still the
    array of one zero, the first successful answer of the driver is
    compared with 0.0: a reading equal to 0.0 (or -0.0) is not novel, the
    newest sample stays the array and nothing is logged; any other
    reading becomes the newest sample, as a tuple, and is logged when
    [_recording] is set. *)
Theorem one_channel_first_reading (str_float : Py.rendering)
  (x : float) (values : list float) (now : float) (s : state)
  (content : string) :
  _n_channels (self s) = 1%Z ->
  _newestsample (self s) = ndarray (numpy.zeros 1) ->
  _loglock (self s) = false ->
  file_closed (_logfile (self s)) = false ->
  log_content s = Some content ->
  _recording (self s) = true ->
  _recordtobuff (self s) = false ->
  let t :=
    Py.int_of_float ((now - _starting_time (self s)) * 1000)%float in
  exists s',
    sp_iteration str_float (reading (x :: values) now) s = (s', Ok tt) /\
    if PrimFloat.eqb x 0%float then
      sample s' = (s', Ok (ndarray [0%float])) /\
      log_content s' = Some content
    else
      sample s' = (s', Ok (tuple [x])) /\
      log_content s' = Some (content +:+ data_row str_float t [x]).
Proof.
  intros Hn Hzeros Hfree Hopen Hcontent Hrec Hrtb t. subst t.
  destruct s as [o w]. unfold log_content in *. cbn [self env] in *.
  unfold sp_iteration, sp_novel, sp_fetch, answer, reading. run.
  cbn [check_returncode Z.eqb Pos.eqb String.eqb Ascii.eqb Bool.eqb negb
       fetch_result fetch_values fetch_clock]. run.
  rewrite Hn, Hzeros, sample_ne_zeros_one_channel. unfold Py.float_ne.
  destruct (PrimFloat.eqb x 0%float); cbn [negb]; run.
  - eexists. split; [reflexivity|]. unfold sample, gets. cbn.
    now rewrite Hzeros.
  - unfold sp_record, sp_write_row. run. rewrite Hrec. run.
    rewrite Hfree. run. rewrite Hopen. run.
    rewrite data_row_encodable. run. rewrite Hrtb. run.
    eexists. split; [reflexivity|]. unfold sample, gets. cbn.
    now rewrite lookup_alter_eq, Hcontent.
Qed.

Lemma one_channel_first_reading_witness :
  exists s',
    sp_iteration demo_str_float (reading [(-0)%float] 11%float) (demo 1 true) =
      (s', Ok tt) /\
    sample s' = (s', Ok (ndarray [0%float])) /\
    log_content s' = Some (Py.join TAB (header 1)).
Proof.
  destruct (one_channel_first_reading demo_str_float (-0)%float [] 11%float
              (demo 1 true) (Py.join TAB (header 1)))
    as (s' & Hrun & Hsample & Hlog); try reflexivity.
  - exists s'. now repeat split.
Defined.

(** ** Indexing the newest sample *)

(** X20. On a session that [__init__] opened with [n_channels] channels,
    at any time (after any calls of the methods and runs of the thread),
    every index from [-n_channels] to [n_channels - 1] into what
    [sample()] returns finds a reading: the caller's [sample[0]],
    [sample[1]], [sample[2]] on a session of three channels never raise
    [IndexError]. *)
Theorem sample_index_in_range (str_float : Py.rendering)
  (devname : string) (n_channels samplerate : Z) (logfile : string)
  (overwrite : bool) (w w' : world) (o : BioPac) (calls : list call)
  (i : Z) :
  __init__ devname n_channels samplerate logfile overwrite w = (w', Ok o) ->
  (- n_channels <= i < n_channels)%Z ->
  let s := session_after str_float calls {| self := o; env := w' |} in
  exists v x,
    sample s = (s, Ok v) /\ Py.getitem (items v) i = Ok x.
Proof.
  intros Hinit Hi s.
  destruct (init_Ok _ _ _ _ _ _ _ _ Hinit) as (Hn & Hch & Hzeros & _).
  assert (Hs : channels_ok n_channels s).
  { apply session_after_channels_ok. unfold channels_ok, about_sample.
    cbn. rewrite Hzeros. split; [exact Hch | apply length_zeros]. }
  destruct Hs as [_ Hlen].
  exists (_newestsample (self s)), (channel i (items (_newestsample (self s)))).
  split; [reflexivity|]. apply getitem_channel. rewrite Hlen. lia.
Qed.

Lemma sample_index_in_range_witness :
  exists w' o v x,
    __init__ "MP150" 3 200 "test" true with_old_log = (w', Ok o) /\
    sample (session_after demo_str_float
              [StartRecording; ThreadRuns three_readings; StartRecording]
              {| self := o; env := w' |}) =
      (session_after demo_str_float
         [StartRecording; ThreadRuns three_readings; StartRecording]
         {| self := o; env := w' |}, Ok v) /\
    Py.getitem (items v) 2 = Ok x.
Proof.
  destruct (__init__ "MP150" 3 200 "test" true with_old_log)
    as [w' [o|e]] eqn:Hinit.
  - destruct (sample_index_in_range demo_str_float "MP150" 3 200 "test"
                true with_old_log w' o
                [StartRecording; ThreadRuns three_readings; StartRecording]
                2 Hinit)
      as (v & x & Hsample & Hitem); [lia|].
    exists w', o, v, x. now repeat split.
  - vm_compute in Hinit. discriminate Hinit.
Defined.

(** ** The lock and the log file between [__init__] and [close] *)

(** [__init__] leaves the encoding of text files as it is. *)
Lemma init_encoding (devname : string) (n_channels samplerate : Z)
  (logfile : string) (overwrite : bool) (w : world) :
  encoding (fst (__init__ devname n_channels samplerate logfile overwrite w))
    = encoding w.
Proof.
  unfold __init__.
  destruct (_supported !! Py.upper devname) as [devcode|]; [|reflexivity].
  destruct (samplerate =? 0)%Z; [reflexivity|].
  destruct (negb _); [reflexivity|].
  pose proof (set_logfilename_world logfile overwrite w) as Hw.
  destruct (set_logfilename logfile overwrite w) as [w1 [name|e1]] eqn:Hname;
    cbn in Hw; subst w1.
  2: { now erewrite bind_Raise by exact Hname. }
  erewrite bind_Ok by exact Hname. unfold open_w. init_steps; reflexivity.
Qed.

Lemma sp_iteration_log_ready (str_float : Py.rendering) (f : fetch)
  (s : state) :
  log_ready s ->
  log_ready (fst (sp_iteration str_float f s)) /\
  encoding (env (fst (sp_iteration str_float f s))) = encoding (env s).
Proof.
  destruct s as [o w]. unfold log_ready. cbn [self env].
  intros [Hfree Hopen].
  unfold sp_iteration, sp_novel, sp_fetch, answer. run.
  destruct (negb (String.eqb _ _)); run; [now split|].
  destruct (sample_ne _ _) as [[|]|]; run; try (now split).
  unfold sp_record, sp_write_row, sp_to_buffer. run.
  destruct (_recording o); run; rewrite ?Hfree; run; rewrite ?Hopen; run;
    rewrite ?data_row_encodable; run;
    (destruct (_recordtobuff o); run; [|now split]);
    cbn [items]; destruct (Py.getitem _ _); run; now split.
Qed.

Lemma sampleprocesser_log_ready (str_float : Py.rendering)
  (fetches : list fetch) (s : state) :
  log_ready s ->
  log_ready (fst (_sampleprocesser str_float fetches s)) /\
  encoding (env (fst (_sampleprocesser str_float fetches s))) =
    encoding (env s).
Proof.
  revert s. induction fetches as [|f fetches IH]; intros s Hs.
  - cbn [_sampleprocesser]. run. now split.
  - cbn [_sampleprocesser]. unfold bind, gets.
    destruct (_connected (self s)); [|now split].
    destruct (sp_iteration_log_ready str_float f s Hs) as [Hs1 Henc1].
    destruct (sp_iteration str_float f s) as [s1 [[]|e]]; cbn in *.
    + destruct (IH s1 Hs1) as [Hs' Henc']. split; congruence.
    + now split.
Qed.

Lemma perform_log_ready (str_float : Py.rendering) (c : call)
  (s : state) :
  is_not_close c = true ->
  is_encodable (encoding (env s)) c = true ->
  log_ready s ->
  log_ready (perform str_float c s) /\
  encoding (env (perform str_float c s)) = encoding (env s).
Proof.
  intros Hc Hmsg Hs. destruct c; try discriminate Hc; cbn [perform];
    try (now apply sampleprocesser_log_ready);
    destruct s as [o w]; destruct Hs as [Hfree Hopen];
    unfold log_ready in *; cbn [self env is_encodable] in *;
    try (now split).
  - unfold stop_recording. run. rewrite Hfree. run. rewrite Hopen. run.
    now split.
  - unfold log. run. rewrite Hfree. run. rewrite Hopen. run.
    rewrite message_row_encodable, Hmsg. run. now split.
Qed.

(** X21. Between [__init__] and [close()] the log stays writable: after
    any calls of the other methods, with messages that the encoding of
    the log file can encode, and any runs of the thread, on whatever the
    driver answers, the log lock is free and the log file is open.  So
    [log(msg)] of such a message and [stop_recording()] return at any
    such time, and [close()] then leaves the file closed and
    [_connected] off. *)
Theorem log_stays_ready (str_float : Py.rendering)
  (devname : string) (n_channels samplerate : Z) (logfile : string)
  (overwrite : bool) (w w' : world) (o : BioPac) (calls : list call) :
  __init__ devname n_channels samplerate logfile overwrite w = (w', Ok o) ->
  forallb is_not_close calls = true ->
  forallb (is_encodable (encoding w)) calls = true ->
  let s := session_after str_float calls {| self := o; env := w' |} in
  log_ready s /\
  (forall msg,
     Py.encodable (encoding w) msg = true -> snd (log msg s) = Ok tt) /\
  snd (stop_recording s) = Ok tt /\
  file_closed (_logfile (self (fst (close s)))) = true /\
  _connected (self (fst (close s))) = false.
Proof.
  intros Hinit Hcalls Hmsgs s.
  destruct (init_Ok _ _ _ _ _ _ _ _ Hinit)
    as (_ & _ & _ & _ & _ & _ & _ & Hfree0 & Hopen0 & _).
  pose proof (init_encoding devname n_channels samplerate logfile overwrite w)
    as Henc0.
  rewrite Hinit in Henc0. cbn [fst] in Henc0.
  assert (Hs : log_ready s /\ encoding (env s) = encoding w).
  { assert (Hs0 : log_ready {| self := o; env := w' |} /\
                  encoding (env {| self := o; env := w' |}) = encoding w)
      by now repeat split.
    subst s. revert Hs0. generalize {| self := o; env := w' |}.
    induction calls as [|c calls IH]; intros s0 Hs0; [exact Hs0|].
    cbn [forallb] in Hcalls, Hmsgs.
    apply andb_true_iff in Hcalls as [Hc Hcalls].
    apply andb_true_iff in Hmsgs as [Hmsg Hmsgs].
    cbn [session_after fold_left]. apply (IH Hcalls Hmsgs).
    destruct Hs0 as [Hs0 Henc]. rewrite <- Henc in Hmsg.
    destruct (perform_log_ready str_float c s0 Hc Hmsg Hs0)
      as [Hs1 Henc1].
    split; [exact Hs1 | congruence]. }
  destruct Hs as [Hs Henc].
  split; [exact Hs|]. destruct s as [o1 w1]. destruct Hs as [Hfree Hopen].
  cbn [self env] in *. split; [|split].
  - intros msg Hmsg. unfold log. run. rewrite Hfree. run. rewrite Hopen.
    run. rewrite message_row_encodable, Henc, Hmsg. reflexivity.
  - unfold stop_recording. run. rewrite Hfree. run. rewrite Hopen.
    reflexivity.
  - unfold close, stop_recording. run.
    destruct (_recording o1); run;
      repeat (progress (rewrite ?Hfree, ?Hopen; run));
      destruct (negb (String.eqb _ _)); now split.
Qed.

Lemma log_stays_ready_witness :
  exists w' o,
    __init__ "MP150" 3 200 "test" true with_old_log = (w', Ok o) /\
    snd (log "hello"
           (session_after demo_str_float
              [StartRecording; ThreadRuns three_readings; Log "one";
               StopRecording]
              {| self := o; env := w' |})) = Ok tt.
Proof.
  destruct (__init__ "MP150" 3 200 "test" true with_old_log)
    as [w' [o|e]] eqn:Hinit.
  - destruct (log_stays_ready demo_str_float "MP150" 3 200 "test" true
                with_old_log w' o
                [StartRecording; ThreadRuns three_readings; Log "one";
                 StopRecording] Hinit eq_refl eq_refl)
      as (_ & Hlog & _).
    exists w', o. split; [reflexivity | now apply Hlog].
  - vm_compute in Hinit. discriminate Hinit.
Defined.

(** ** Readings that do not change *)

Lemma novel_none (newest : list float) (samples : list (Z * list float)) :
  Py.tuple_eq newest newest = true ->
  Forall (fun td => snd td = newest) samples ->
  novel newest samples = [].
Proof.
  intros Hrefl Hsame.
  induction Hsame as [|td samples Htd _ IH]; [reflexivity|].
  cbn [novel]. unfold Py.tuple_ne. now rewrite Htd, Hrefl.
Qed.

(** X22. Switching the recording on does not log the sample that is
    already the newest one: on a recording session whose newest sample is
    a tuple (with no NaN), answers of the driver that carry the same
    readings write nothing, however many there are; the log gets its next
    row only when a reading changes. *)
Theorem unchanged_readings_are_not_logged (str_float : Py.rendering)
  (fetches : list fetch) (s : state) (newest : list float)
  (content : string) :
  Forall (fun f =>
    fetch_result f = Returned 1 /\
    c_double_array (_n_channels (self s)) (fetch_values f) = newest)
    fetches ->
  Py.tuple_eq newest newest = true ->
  _connected (self s) = true ->
  _newestsample (self s) = tuple newest ->
  _loglock (self s) = false ->
  file_closed (_logfile (self s)) = false ->
  log_content s = Some content ->
  _recording (self s) = true ->
  _recordtobuff (self s) = false ->
  exists s',
    _sampleprocesser str_float fetches s = (s', Ok Waiting) /\
    log_content s' = Some content /\
    sample s' = (s', Ok (tuple newest)).
Proof.
  intros Hfetches Hrefl Halive Hnewest Hfree Hopen Hcontent Hrec Hrtb.
  assert (Hnone :
    novel newest
      (map (stamped (_starting_time (self s)) (_n_channels (self s)))
           fetches) = []).
  { apply novel_none; [exact Hrefl|].
    apply Forall_map. eapply Forall_impl; [exact Hfetches|].
    now intros f [_ Hdata]. }
  destruct (sampleprocesser_tuple str_float fetches s newest content)
    as (s' & Hrun & _ & Hnewest' & Hcontent' & _); try assumption.
  { eapply Forall_impl; [exact Hfetches|]. now intros f [Hf _]. }
  { rewrite Hrtb. discriminate. }
  { intros _. rewrite Hnone. constructor. }
  rewrite Hrec, Hnone in Hcontent'. rewrite Hnone in Hnewest'.
  cbn in Hcontent', Hnewest'. rewrite append_empty_r in Hcontent'.
  exists s'. split; [exact Hrun|]. split; [exact Hcontent'|].
  unfold sample, gets. now rewrite Hnewest'.
Qed.

Lemma unchanged_readings_are_not_logged_witness :
  exists s',
    _sampleprocesser demo_str_float
      [reading [2.5%float] 11%float; reading [2.5%float] 12%float]
      (demo_tuple [2.5%float] true false 0) = (s', Ok Waiting) /\
    log_content s' = Some (Py.join TAB (header 1)).
Proof.
  destruct (unchanged_readings_are_not_logged demo_str_float
              [reading [2.5%float] 11%float; reading [2.5%float] 12%float]
              (demo_tuple [2.5%float] true false 0) [2.5%float]
              (Py.join TAB (header 1)))
    as (s' & Hrun & Hlog & _); try reflexivity.
  - repeat constructor.
  - exists s'. split; [exact Hrun | exact Hlog].
Defined.

(** ** Why [__init__] fails *)

(** X23. With arguments that pass the checks (a supported device, a
    sample rate other than zero that [float] converts, 1 to 16 channels,
    and a log file that is new or may be overwritten), [__init__] fails
    only on the driver or on opening the log file: the exception is that
    of one of the four steps of the open sequence, carrying an answer of
    the driver other than 1, or it is the error of [open], for a log file
    that cannot be opened for writing, after the driver answered 1 to
    all four steps. *)
Theorem init_fails_on_driver_or_open (devname : string)
  (n_channels samplerate : Z) (logfile : string) (overwrite : bool)
  (w : world) (e : error) :
  is_Some (_supported !! Py.upper devname) ->
  samplerate <> 0%Z ->
  (Z.abs samplerate < 2 ^ 1023)%Z ->
  (1 <= n_channels <= 16)%Z ->
  overwrite = true \/ fs w !! (logfile +:+ "_BIOPAC_data.tsv") = None ->
  snd (__init__ devname n_channels samplerate logfile overwrite w) =
    Raise e ->
  (exists result,
     result <> Returned 1 /\
     (e = FailedToConnect result \/ e = FailedToSetSamplerate result \/
      e = FailedToSetChannels result \/
      e = FailedToStartAcquisition result)) \/
  (e = OSError /\
   can_open w (logfile +:+ "_BIOPAC_data.tsv") = false /\
   forall devcode, _supported !! Py.upper devname = Some devcode ->
     Forall (fun step => mpdev w (fst step) = Returned 1)
       (open_sequence devcode (1000 / inject_Z samplerate)%Q n_channels)).
Proof.
  intros [devcode Hdev] Hrate _ Hn Hname. unfold __init__. rewrite Hdev.
  destruct (Z.eqb_spec samplerate 0); [contradiction|].
  destruct (Z.ltb_spec 0 n_channels), (Z.leb_spec n_channels 16);
    try lia. cbn [andb negb].
  erewrite bind_Ok by (apply set_logfilename_plain; exact Hname).
  unfold open_w. run.
  repeat (match goal with
          | |- context [negb (String.eqb (check_returncode ?r) _)] =>
              let E := fresh "E" in
              destruct (String.eqb (check_returncode r) "MPSUCCESS") eqn:E;
              cbn [negb]
          end; run).
  2-5: intros He; injection He as <-; left;
       eexists; (split; [|eauto]);
       intros Hr; match goal with
                  | E : String.eqb (check_returncode ?r) _ = false |- _ =>
                      rewrite Hr in E; discriminate E
                  end.
  destruct (can_open w _) eqn:Hopen; run.
  - rewrite header_encodable. run. discriminate.
  - intros [= <-]. right. split; [reflexivity|]. split; [reflexivity|].
    intros devcode' [= <-]. unfold open_sequence.
    repeat match goal with
           | E : String.eqb (check_returncode ?r) _ = true |- _ =>
               apply check_returncode_success in E
           end.
    now repeat constructor.
Qed.

Lemma init_fails_on_driver_or_open_witness :
  exists result,
    result <> Returned 1 /\
    (FailedToSetSamplerate (Returned 0) = FailedToConnect result \/
     FailedToSetSamplerate (Returned 0) = FailedToSetSamplerate result \/
     FailedToSetSamplerate (Returned 0) = FailedToSetChannels result \/
     FailedToSetSamplerate (Returned 0) = FailedToStartAcquisition result).
Proof.
  destruct (init_fails_on_driver_or_open "MP150" 3 200 "demo" false
              refusing_rate (FailedToSetSamplerate (Returned 0)))
    as [Hdriver | [Hopen _]].
  - now eexists.
  - lia.
  - reflexivity.
  - lia.
  - now right.
  - reflexivity.
  - exact Hdriver.
  - discriminate Hopen.
Defined.
